(** * Attractor pipeline engine of readme_to_feishu: a shallow embedding

    Models of [pipeline/conditions.py], [pipeline/engine.py] (edge selection,
    label normalisation and the traversal loop), [pipeline/dot_parser.py],
    [pipeline/handlers/tool.py] and [services/run_pipeline.py] ([run_task]).

    Strings are Stdlib strings, read as UTF-8 byte sequences; Python's
    [str.strip] and [str.lower] are modelled on their ASCII part. Python
    dicts whose iteration order matters are association lists in insertion
    order; the [Context] and attribute dicts are stdpp [gmap]s. *)

From Stdlib Require Import String Ascii ZArith List Bool Lia.
From stdpp Require Import base gmap strings list.
Import ListNotations.
Open Scope string_scope.

(* ------------------------------------------------------------------ *)
(** ** Python string helpers *)

Module Py.

(** [str.isspace] on the ASCII range: \t \n \v \f \r, \x1c-\x1f and space. *)
Definition is_space (c : ascii) : bool :=
  let n := nat_of_ascii c in
  (Nat.leb 9 n && Nat.leb n 13) || (Nat.leb 28 n && Nat.leb n 32).

Fixpoint lstrip (s : string) : string :=
  match s with
  | EmptyString => EmptyString
  | String c r => if is_space c then lstrip r else s
  end.

Definition rev_str (s : string) : string :=
  string_of_list_ascii (rev (list_ascii_of_string s)).

Definition rstrip (s : string) : string := rev_str (lstrip (rev_str s)).

Definition strip (s : string) : string := rstrip (lstrip s).

(** [str.lower] on ASCII letters. *)
Definition lower_char (c : ascii) : ascii :=
  let n := nat_of_ascii c in
  if Nat.leb 65 n && Nat.leb n 90 then ascii_of_nat (n + 32)%nat else c.

Fixpoint lower (s : string) : string :=
  match s with
  | EmptyString => EmptyString
  | String c r => String (lower_char c) (lower r)
  end.

(** [s.strip(ch)]: removes every leading and trailing [ch]. *)
Fixpoint lstrip_char (ch : ascii) (s : string) : string :=
  match s with
  | EmptyString => EmptyString
  | String c r => if Ascii.eqb c ch then lstrip_char ch r else s
  end.

Definition strip_char (ch : ascii) (s : string) : string :=
  rev_str (lstrip_char ch (rev_str (lstrip_char ch s))).

(** Python slice [s[a:]] and [s[a:b]] for [0 <= a <= b]. *)
Definition drop (a : nat) (s : string) : string := substring a (String.length s - a)%nat s.
Definition slice (a b : nat) (s : string) : string := substring a (b - a)%nat s.

(** [sub in s]. *)
Fixpoint contains (sub s : string) : bool :=
  String.prefix sub s ||
  match s with
  | EmptyString => false
  | String _ r => contains sub r
  end.

(** [s.split(sep, 1)] when [sep] occurs: the text before the first
    occurrence and the text after it. *)
Fixpoint split_once (s sep : string) : option (string * string) :=
  if String.prefix sep s then Some ("", drop (String.length sep) s)
  else match s with
       | EmptyString => None
       | String c r =>
           match split_once r sep with
           | Some (a, b) => Some (String c a, b)
           | None => None
           end
       end.

(** [s.split(sep)] for a non-empty separator. *)
Fixpoint split_fuel (fuel : nat) (s sep : string) : list string :=
  match fuel with
  | O => [s]
  | S f =>
      match split_once s sep with
      | Some (a, b) => a :: split_fuel f b sep
      | None => [s]
      end
  end.

Definition split (s sep : string) : list string :=
  split_fuel (S (String.length s)) s sep.

Definition is_empty (s : string) : bool :=
  match s with EmptyString => true | _ => false end.

(** The characters (code points) of a [str], read off its UTF-8 bytes:
    each is a byte that is not a continuation byte (0x80-0xBF) followed by
    its continuation bytes.  Indexing, slicing and [len] act on this list. *)
Definition is_cont (c : ascii) : bool :=
  Nat.leb 128 (nat_of_ascii c) && Nat.ltb (nat_of_ascii c) 192.

Definition starts_cont (s : string) : bool :=
  match s with String c _ => is_cont c | EmptyString => false end.

Fixpoint chars (s : string) : list string :=
  match s with
  | EmptyString => []
  | String c r =>
      match chars r with
      | g :: gs => if starts_cont g then String c g :: gs else String c "" :: g :: gs
      | [] => [String c ""]
      end
  end.

(** The [str] made of a list of characters. *)
Definition of_chars (l : list string) : string := String.concat "" l.
(** [s[:n]]: the first [n] characters. *)
Definition take (n : nat) (s : string) : string := of_chars (firstn n (chars s)).
(** Every byte of [s] continues a UTF-8 character. *)
Fixpoint all_cont (s : string) : bool :=
  match s with EmptyString => true | String c r => is_cont c && all_cont r end.
(** [x] is one character: a first byte and its continuation bytes. *)
Definition char_ok (x : string) : Prop :=
  match x with String _ r => all_cont r = true | EmptyString => False end.

(** [str.isspace] on one character. *)
Definition is_space_ch (c : string) : bool :=
  match c with String a EmptyString => is_space a | _ => false end.

(** [str.strip] on the characters of a [str]. *)
Fixpoint lstrip_l (l : list string) : list string :=
  match l with
  | [] => []
  | c :: r => if is_space_ch c then lstrip_l r else l
  end.

Definition rstrip_l (l : list string) : list string := rev (lstrip_l (rev l)).

Definition strip_l (l : list string) : list string := rstrip_l (lstrip_l l).

(** [s.split(sep, 1)] for a one-character [sep], on characters. *)
Fixpoint split_once_l (l : list string) (sep : string) : option (list string * list string) :=
  match l with
  | [] => None
  | c :: r =>
      if String.eqb c sep then Some ([], r)
      else match split_once_l r sep with
           | Some (a, b) => Some (c :: a, b)
           | None => None
           end
  end.

(** [str(n)] for a Python int. *)
Fixpoint digits_of_pos (fuel : nat) (n : Z) (acc : string) : string :=
  match fuel with
  | O => acc
  | S f =>
      let d := ascii_of_nat (48 + Z.to_nat (n mod 10)%Z)%nat in
      let q := (n / 10)%Z in
      if (q =? 0)%Z then String d acc else digits_of_pos f q (String d acc)
  end.

Definition Z_to_str (z : Z) : string :=
  if (z <? 0)%Z then String "-" (digits_of_pos 64 (- z) "")
  else digits_of_pos 64 z "".

End Py.

(* ------------------------------------------------------------------ *)
(** ** Values stored in attribute dicts and in the Context *)

(** A float literal accepted by [float(s)], read exactly as a decimal
    (rounding to a double is not modelled). *)
Inductive floatlit :=
| FNum (neg : bool) (intpart fracpart : list nat) (exp : Z)
| FInf (neg : bool)
| FNaN.

(** [bool(x)] of a float. *)
Definition float_nonzero (f : floatlit) : bool :=
  match f with
  | FNum _ a b _ => existsb (fun d => negb (Nat.eqb d 0)) (a ++ b)%list
  | _ => true
  end.

(** Python values that reach the pipeline: [None], booleans, ints,
    strings and floats; a float keeps its source literal, which stands for
    its [str()] (Python prints the shortest repr, e.g. [1.5] for [1.50]). *)
Inductive pyval :=
| PyNone
| PyBool (b : bool)
| PyInt (z : Z)
| PyStr (s : string)
| PyFloat (lit : string) (f : floatlit).

(** [str(v)]. *)
Definition py_str (v : pyval) : string :=
  match v with
  | PyNone => "None"
  | PyBool true => "True"
  | PyBool false => "False"
  | PyInt z => Py.Z_to_str z
  | PyStr s => s
  | PyFloat lit _ => lit
  end.

(** [bool(v)]. *)
Definition py_truthy (v : pyval) : bool :=
  match v with
  | PyNone => false
  | PyBool b => b
  | PyInt z => negb (z =? 0)%Z
  | PyStr s => negb (Py.is_empty s)
  | PyFloat _ f => float_nonzero f
  end.

(* ------------------------------------------------------------------ *)
(** ** outcome.py *)

Inductive StageStatus := SUCCESS | FAIL | PARTIAL_SUCCESS | RETRY | SKIPPED.

Definition status_value (s : StageStatus) : string :=
  match s with
  | SUCCESS => "success"
  | FAIL => "fail"
  | PARTIAL_SUCCESS => "partial_success"
  | RETRY => "retry"
  | SKIPPED => "skipped"
  end.

Record Outcome := mkOutcome {
  status : StageStatus;
  preferred_label : string;
  suggested_next_ids : list string;   (* [None] is the empty list *)
  context_updates : gmap string pyval; (* [None] is the empty map *)
  notes : string;
  failure_reason : string
}.

Definition outcome_of (s : StageStatus) : Outcome :=
  mkOutcome s "" [] ∅ "" "".

(* ------------------------------------------------------------------ *)
(** ** context.py *)

Abbreviation Context := (gmap string pyval).

(** [context.get(key)]: [None] when absent or stored as [None]. *)
Definition ctx_get (ctx : Context) (key : string) : option pyval :=
  match ctx !! key with
  | Some PyNone | None => None
  | Some v => Some v
  end.

Definition ctx_set (ctx : Context) (key : string) (v : pyval) : Context :=
  <[key := v]> ctx.

(** [apply_updates]: [dict.update], the updates win. *)
Definition apply_updates (ctx : Context) (updates : gmap string pyval) : Context :=
  updates ∪ ctx.

(** [get_string]. *)
Definition get_string (ctx : Context) (key : string) : string :=
  match ctx_get ctx key with Some v => py_str v | None => "" end.

(* ------------------------------------------------------------------ *)
(** ** conditions.py *)

Definition resolve_key (key0 : string) (o : Outcome) (ctx : Context) : string :=
  let key := Py.strip key0 in
  if String.eqb key "outcome" then status_value (status o)
  else if String.eqb key "preferred_label" then preferred_label o
  else if String.prefix "context." key then
    let k := Py.strip (Py.drop 9 key) in
    match ctx_get ctx k with
    | Some v => py_str v
    | None =>
        match ctx_get ctx key with
        | Some v => py_str v
        | None => ""
        end
    end
  else
    match ctx_get ctx key with
    | Some v => py_str v
    | None => ""
    end.

Definition dquote : ascii := ascii_of_nat 34.

Definition evaluate_clause (clause0 : string) (o : Outcome) (ctx : Context) : bool :=
  let clause := Py.strip clause0 in
  match Py.split_once clause "!=" with
  | Some (p0, p1) =>
      let key := Py.strip p0 in
      let val := Py.strip_char dquote (Py.strip p1) in
      negb (String.eqb (resolve_key key o ctx) val)
  | None =>
      match Py.split_once clause "=" with
      | Some (p0, p1) =>
          let key := Py.strip p0 in
          let val := Py.strip_char dquote (Py.strip p1) in
          String.eqb (resolve_key key o ctx) val
      | None => negb (Py.is_empty (resolve_key clause o ctx))
      end
  end.

Definition evaluate_condition (condition : string) (o : Outcome) (ctx : Context) : bool :=
  if Py.is_empty condition || Py.is_empty (Py.strip condition) then true
  else
    let clauses := List.filter (fun c => negb (Py.is_empty c))
                     (map Py.strip (Py.split condition "&&")) in
    forallb (fun c => evaluate_clause c o ctx) clauses.

(* ------------------------------------------------------------------ *)
(** ** graph.py *)

Module Node.
Record t := mk {
  id : string;
  label : string;
  shape : string;
  type : string;
  prompt : string;
  attrs : gmap string pyval
}.
Definition display_name (n : t) : string :=
  if Py.is_empty (label n) then id n else label n.
End Node.

Module Edge.
Record t := mk {
  from_node : string;
  to_node : string;
  label : string;
  condition : string;
  weight : Z
}.
End Edge.

Module Graph.
Record t := mk {
  name : string;
  goal : string;
  label : string;
  nodes : list (string * Node.t);   (* dict in insertion order *)
  edges : list Edge.t;
  graph_attrs : gmap string pyval
}.

Definition empty : t := mk "" "" "" [] [] ∅.

Fixpoint assoc {A} (k : string) (l : list (string * A)) : option A :=
  match l with
  | [] => None
  | (k', v) :: r => if String.eqb k k' then Some v else assoc k r
  end.

Definition get_node (g : t) (node_id : string) : option Node.t :=
  assoc node_id (nodes g).

Definition outgoing_edges (g : t) (node_id : string) : list Edge.t :=
  List.filter (fun e => String.eqb (Edge.from_node e) node_id) (edges g).

Definition find_start_node (g : t) : option string :=
  match find (fun p => String.eqb (Node.shape (snd p)) "Mdiamond") (nodes g) with
  | Some (nid, _) => Some nid
  | None =>
      match get_node g "start" with
      | Some _ => Some "start"
      | None => match get_node g "Start" with Some _ => Some "Start" | None => None end
      end
  end.

Definition is_terminal (g : t) (node_id : string) : bool :=
  match get_node g node_id with
  | None => false
  | Some n =>
      String.eqb (Node.shape n) "Msquare" ||
      String.eqb (Py.lower node_id) "exit" || String.eqb (Py.lower node_id) "end"
  end.
End Graph.

(* ------------------------------------------------------------------ *)
(** ** engine.py: label normalisation and edge selection *)

(** The three [if] blocks of [_normalize_label] (lines 34-39), on the
    characters of [s]. *)
Definition strip_bracket_prefix (s : list string) : list string :=
  if match s with c :: _ => String.eqb c "[" | [] => false end &&
     existsb (fun c => String.eqb c "]") (firstn 4 s)
  then match Py.split_once_l s "]" with
       | Some (_, after) => Py.strip_l after
       | None => s
       end
  else s.

Definition strip_paren_prefix (s : list string) : list string :=
  if Nat.leb 2 (length s) && bool_decide (firstn 1 (skipn 1 s) = [")"])
  then Py.strip_l (skipn 2 s) else s.

Definition strip_dash_prefix (s : list string) : list string :=
  if Nat.leb 3 (length s) && bool_decide (firstn 2 (skipn 1 s) = [" "; "-"])
  then Py.strip_l (skipn 3 s) else s.

(** [_normalize_label]; [str.lower] acts on each character. *)
Definition _normalize_label (label : string) : string :=
  Py.of_chars (Py.strip_l (strip_dash_prefix (strip_paren_prefix (strip_bracket_prefix
    (map Py.lower (Py.strip_l (Py.chars label))))))).

(** The sort key [(-e.weight, e.to_node)], compared with [<=]. *)
Definition key_le (e1 e2 : Edge.t) : bool :=
  (Edge.weight e2 <? Edge.weight e1)%Z ||
  ((Edge.weight e1 =? Edge.weight e2)%Z && String.leb (Edge.to_node e1) (Edge.to_node e2)).

(** [sorted(xs, key=...)]: a stable insertion sort on [key_le]; an element
    is placed before the later elements whose key is not smaller. *)
Fixpoint ins (x : Edge.t) (l : list Edge.t) : list Edge.t :=
  match l with
  | [] => [x]
  | y :: r => if key_le x y then x :: l else y :: ins x r
  end.

Definition sorted_by_key (l : list Edge.t) : list Edge.t := fold_right ins [] l.

Fixpoint first_suggested (sids : list string) (edges : list Edge.t) : option Edge.t :=
  match sids with
  | [] => None
  | sid :: r =>
      match find (fun e => String.eqb (Edge.to_node e) sid) edges with
      | Some e => Some e
      | None => first_suggested r edges
      end
  end.

Definition guard_matched (edges : list Edge.t) (o : Outcome) (ctx : Context) : list Edge.t :=
  List.filter (fun e => negb (Py.is_empty (Edge.condition e)) &&
                   evaluate_condition (Edge.condition e) o ctx) edges.

Definition select_edge (node : Node.t) (o : Outcome) (ctx : Context) (g : Graph.t)
  : option Edge.t :=
  let edges := Graph.outgoing_edges g (Node.id node) in
  match edges with
  | [] => None
  | _ =>
    match sorted_by_key (guard_matched edges o ctx) with
    | e :: _ => Some e
    | [] =>
      let by_label :=
        if negb (Py.is_empty (preferred_label o)) then
          let pl := _normalize_label (preferred_label o) in
          find (fun e => String.eqb (_normalize_label (Edge.label e)) pl) edges
        else None in
      match by_label with
      | Some e => Some e
      | None =>
        match first_suggested (suggested_next_ids o) edges with
        | Some e => Some e
        | None =>
          let unconditional := List.filter (fun e => Py.is_empty (Edge.condition e)) edges in
          match sorted_by_key unconditional with
          | e :: _ => Some e
          | [] => head (sorted_by_key edges)
          end
        end
      end
    end
  end.

(* ------------------------------------------------------------------ *)
(** ** engine.py: [PipelineEngine.run] *)

(** A value in an event's data dict: a plain value or a nested dict. *)
Inductive evval :=
| EVal (v : pyval)
| EDict (d : list (string * pyval)).

(** An event passed to [on_event]: its kind and its data dict. *)
Record Event := mkEvent { ev_kind : string; ev_data : list (string * evval) }.

(** [d[k] = v] on a dict kept in insertion order. *)
Fixpoint dict_set {A} (l : list (string * A)) (k : string) (v : A) : list (string * A) :=
  match l with
  | [] => [(k, v)]
  | (k', v') :: r => if String.eqb k k' then (k', v) :: r else (k', v') :: dict_set r k v
  end.

(** [bool(n.attrs.get("goal_gate"))]. *)
Definition goal_gate (n : Node.t) : bool :=
  match Node.attrs n !! "goal_gate" with Some v => py_truthy v | None => false end.

Definition status_ok (s : StageStatus) : bool :=
  match s with SUCCESS | PARTIAL_SUCCESS => true | _ => false end.

(** The loop over [node_outcomes.items()] at a terminal node: the first
    goal-gated node whose outcome is neither SUCCESS nor PARTIAL_SUCCESS. *)
Fixpoint goal_gate_violation (g : Graph.t) (nos : list (string * Outcome))
  : option (string * Outcome) :=
  match nos with
  | [] => None
  | (nid, oc) :: r =>
      match Graph.get_node g nid with
      | None => goal_gate_violation g r
      | Some n =>
          if goal_gate n && negb (status_ok (status oc)) then Some (nid, oc)
          else goal_gate_violation g r
      end
  end.

Definition goal_gate_reason (nid : string) (oc : Outcome) : string :=
  "Goal gate unsatisfied at node '" ++ nid ++ "': " ++
  (if Py.is_empty (failure_reason oc) then status_value (status oc) else failure_reason oc).

(** Lines 156-159: merge the updates, then record [outcome] and
    [preferred_label]. *)
Definition merge_outcome (ctx : Context) (oc : Outcome) : Context :=
  let ctx := apply_updates ctx (context_updates oc) in
  let ctx := ctx_set ctx "outcome" (PyStr (status_value (status oc))) in
  if negb (Py.is_empty (preferred_label oc))
  then ctx_set ctx "preferred_label" (PyStr (preferred_label oc)) else ctx.

(** The traversal state of one run. *)
Record EState := mkEState {
  current_id : string;
  node_outcomes : list (string * Outcome);
  last_outcome : option Outcome;
  ectx : Context;
  events : list Event
}.

(** One iteration of the [while True] loop: it continues at another node,
    returns an Outcome, or raises. *)
Inductive Step :=
| Continue (st : EState)
| Returned (o : Outcome) (ctx : Context) (evs : list Event)
| Raised (msg : string) (ctx : Context) (evs : list Event).

Section Engine.

(** [self._resolve_handler(node).execute(node, ctx, graph, logs_root)]: the
    handler's Outcome, and the Context as the handler left it (tool
    executors write into it). Files under [logs_root] are not modelled. *)
Variable execute : Node.t -> Context -> Outcome * Context.

(** After the loop: emit [PipelineCompleted] and return the last Outcome. *)
Definition finish (st : EState) : Step :=
  Returned
    (match last_outcome st with
     | Some o => o
     | None => mkOutcome SUCCESS "" [] ∅ "Pipeline completed" ""
     end)
    (ectx st)
    (events st ++ [mkEvent "PipelineCompleted" [("current_node", EVal (PyStr (current_id st)))]])%list.

Definition engine_step (g : Graph.t) (st : EState) : Step :=
  match Graph.get_node g (current_id st) with
  | None => Raised ("Node not found: " ++ current_id st) (ectx st) (events st)
  | Some node =>
    if Graph.is_terminal g (current_id st) then
      match goal_gate_violation g (node_outcomes st) with
      | Some (nid, oc) =>
          let fail := mkOutcome FAIL "" [] ∅ "" (goal_gate_reason nid oc) in
          Returned fail (ectx st)
            (events st ++ [mkEvent "PipelineFailed"
                             [("node_id", EVal (PyStr nid)); ("reason", EVal (PyStr (failure_reason fail)))]])%list
      | None => finish st
      end
    else
      let evs := (events st ++
                 [mkEvent "StageStarted" [("node_id", EVal (PyStr (Node.id node)));
                                          ("label", EVal (PyStr (Node.display_name node)))]])%list in
      let '(oc, ctx1) := execute node (ectx st) in
      let nos := dict_set (node_outcomes st) (current_id st) oc in
      let ctx := merge_outcome ctx1 oc in
      let evs := (evs ++
                 [mkEvent "StageCompleted" [("node_id", EVal (PyStr (Node.id node)));
                                            ("outcome", EVal (PyStr (status_value (status oc))));
                                            ("notes", EVal (PyStr (notes oc)))]])%list in
      match status oc with
      | FAIL =>
          match sorted_by_key (guard_matched (Graph.outgoing_edges g (Node.id node)) oc ctx) with
          | e :: _ => Continue (mkEState (Edge.to_node e) nos (Some oc) ctx evs)
          | [] => Raised ("Stage '" ++ Node.id node ++ "' failed: " ++ failure_reason oc) ctx evs
          end
      | _ =>
          match select_edge node oc ctx g with
          | None => finish (mkEState (current_id st) nos (Some oc) ctx evs)
          | Some e => Continue (mkEState (Edge.to_node e) nos (Some oc) ctx evs)
          end
      end
  end.

(** The loop, bounded by [fuel]; [None] when the fuel runs out (the Python
    loop has no bound and may not terminate on a cyclic graph). *)
Fixpoint run_loop (fuel : nat) (g : Graph.t) (st : EState) : option Step :=
  match fuel with
  | O => None
  | S f =>
      match engine_step g st with
      | Continue st' => run_loop f g st'
      | r => Some r
      end
  end.

Definition run (fuel : nat) (g : Graph.t) (ctx0 : Context) : option Step :=
  let ctx := ctx_set (ctx_set ctx0 "graph.goal" (PyStr (Graph.goal g)))
                     "graph.label" (PyStr (Graph.label g)) in
  match Graph.find_start_node g with
  | None => Some (Raised "No start node (shape=Mdiamond or id=start) found" ctx [])
  | Some s => run_loop fuel g (mkEState s [] None ctx [])
  end.

End Engine.

(* ------------------------------------------------------------------ *)
(** ** handlers/tool.py: [ToolHandler.execute] *)

(** What [subprocess.run(command, shell=True, capture_output=True,
    text=True, timeout=300, cwd=...)] does: it completes with a return code
    and the captured streams, raises [TimeoutExpired], or raises another
    exception (e.g. a [TypeError] for a non-string command). *)
Inductive ProcResult :=
| Completed (returncode : Z) (stdout stderr : string)
| TimeoutExpired
| ProcError (msg : string).

(** What a registered tool executor does: it returns an Outcome, returns
    [None], or raises; in each case with the Context it leaves behind. *)
Inductive ExecResult :=
| ExecOutcome (o : Outcome)
| ExecNone
| ExecRaise (msg : string).

Section ToolHandler.

Variable executors : list (string * (Node.t -> Context -> ExecResult * Context)).
(** [subprocess.run] on a command value and a working directory. *)
Variable subprocess_run : pyval -> pyval -> ProcResult.

(** [node.attrs.get("tool") or node.attrs.get("tool_command")]. *)
Definition tool_name (n : Node.t) : option pyval :=
  match Node.attrs n !! "tool" with
  | Some v => if py_truthy v then Some v else Node.attrs n !! "tool_command"
  | None => Node.attrs n !! "tool_command"
  end.

(** The registered executor the handler dispatches to, if any. *)
Definition registered_executor (n : Node.t) :=
  match tool_name n with
  | Some (PyStr s) => Graph.assoc s executors
  | _ => None
  end.

(** [node.attrs.get("tool_command", "")]. *)
Definition tool_command (n : Node.t) : pyval :=
  match Node.attrs n !! "tool_command" with Some v => v | None => PyStr "" end.

(** [context.get("work_dir") or "."]. *)
Definition tool_cwd (ctx : Context) : pyval :=
  match ctx_get ctx "work_dir" with
  | Some v => if py_truthy v then v else PyStr "."
  | None => PyStr "."
  end.

(** The handler's result ([None] when an executor returned [None]) and the
    Context afterwards. *)
Definition tool_execute (n : Node.t) (ctx : Context) : option Outcome * Context :=
  match registered_executor n with
  | Some ex =>
      match ex n ctx with
      | (ExecOutcome o, ctx') => (Some o, ctx')
      | (ExecNone, ctx') => (None, ctx')
      | (ExecRaise m, ctx') => (Some (mkOutcome FAIL "" [] ∅ "" m), ctx')
      end
  | None =>
      let command := tool_command n in
      if negb (py_truthy command) then
        (Some (mkOutcome FAIL "" [] ∅ "" "No tool_command or registered tool specified"), ctx)
      else
        match subprocess_run command (tool_cwd ctx) with
        | Completed rc so se =>
            let out := so ++ se in
            (Some (mkOutcome (if (rc =? 0)%Z then SUCCESS else FAIL) "" []
                     {[ "tool.output" := PyStr out ]}
                     ("Tool completed: " ++ py_str command)
                     (if (rc =? 0)%Z then ""
                      else if Py.is_empty out then "exit code " ++ Py.Z_to_str rc else out)), ctx)
        | TimeoutExpired => (Some (mkOutcome FAIL "" [] ∅ "" "Tool timed out"), ctx)
        | ProcError m => (Some (mkOutcome FAIL "" [] ∅ "" m), ctx)
        end
  end.

End ToolHandler.

(* ------------------------------------------------------------------ *)
(** ** services/run_pipeline.py: [run_task] *)

(** The process-wide [_task_store] holds, per task, a reference to its
    events list; Python lists are shared objects, so lists live in a heap
    indexed by locations and [list(events)] allocates a fresh copy. *)
Record TaskRec := mkTask {
  task_status : string;
  task_events : nat;                                  (* location of the list *)
  task_result : option (list (string * pyval))
}.

Record World := mkWorld {
  task_store : list (string * TaskRec);
  heap : gmap nat (list Event);
  next_loc : nat
}.

Definition alloc (w : World) (l : list Event) : nat * World :=
  (next_loc w, mkWorld (task_store w) (<[next_loc w := l]> (heap w)) (S (next_loc w))).

Definition heap_get (w : World) (loc : nat) : list Event :=
  match heap w !! loc with Some l => l | None => [] end.

Definition list_append (w : World) (loc : nat) (ev : Event) : World :=
  mkWorld (task_store w) (<[loc := (heap_get w loc ++ [ev])%list]> (heap w)) (next_loc w).

Definition update_task (w : World) (tid : string) (f : TaskRec -> TaskRec) : World :=
  match Graph.assoc tid (task_store w) with
  | Some r => mkWorld (dict_set (task_store w) tid (f r)) (heap w) (next_loc w)
  | None => w
  end.

(** The events list a reader of [_task_store[task_id]["events"]] sees. *)
Definition visible_events (w : World) (tid : string) : option (list Event) :=
  match Graph.assoc tid (task_store w) with
  | Some r => Some (heap_get w (task_events r))
  | None => None
  end.

Definition step_names (node_id : string) : option string :=
  if String.eqb node_id "fetch_input" then Some "parsing"
  else if String.eqb node_id "parse" then Some "parsing"
  else if String.eqb node_id "understand" then Some "understanding"
  else if String.eqb node_id "convert" then Some "converting"
  else if String.eqb node_id "publish" then Some "publishing"
  else None.

Definition step_progress (step : string) : Z :=
  if String.eqb step "parsing" then 25
  else if String.eqb step "understanding" then 50
  else if String.eqb step "converting" then 75
  else if String.eqb step "publishing" then 100 else 0.

(** [data.get("node_id", "")]. *)
Definition data_node_id (data : list (string * evval)) : string :=
  match Graph.assoc "node_id" data with Some (EVal (PyStr s)) => s | _ => "" end.

(** The [on_event] closure of [run_task]; [events] is the location of its
    local list. *)
Definition on_event (tid : string) (events : nat) (w : World) (ev : Event) : World :=
  let w := list_append w events ev in
  let w := match step_names (data_node_id (ev_data ev)) with
           | Some step =>
               list_append w events
                 (mkEvent "progress" [("step", EVal (PyStr step)); ("progress", EVal (PyInt (step_progress step)))])
           | None => w
           end in
  match Graph.assoc tid (task_store w) with
  | Some _ =>
      let '(copy, w) := alloc w (heap_get w events) in
      update_task w tid (fun r => mkTask (task_status r) copy (task_result r))
  | None => w
  end.

Section RunTask.

Variable execute : Node.t -> Context -> Outcome * Context.
(** The graph [create_engine] parses from [pipelines/readme_to_feishu.dot]. *)
Variable graph : Graph.t.
Variable fuel : nat.

(** [run_task] on a task id and the seeded Context; [None] when the engine
    run does not end within [fuel] iterations. *)
Definition run_task (tid : string) (ctx0 : Context) (w0 : World) : option World :=
  let '(events, w) := alloc w0 [] in
  let w := mkWorld (dict_set (task_store w) tid (mkTask "running" events None))
                   (heap w) (next_loc w) in
  match run execute fuel graph ctx0 with
  | None => None
  | Some (Returned o ctx evs) =>
      let w := fold_left (on_event tid events) evs w in
      let result := [("feishu_doc_url", PyStr (get_string ctx "feishu_doc_url"));
                     ("feishu_document_id", PyStr (get_string ctx "feishu_document_id"));
                     ("status", PyStr (match status o with SUCCESS => "success" | _ => "failed" end));
                     ("failure_reason", PyStr (failure_reason o))] in
      let w := update_task w tid (fun r => mkTask (task_status r) (task_events r) (Some result)) in
      let w := update_task w tid (fun r => mkTask "completed" (task_events r) (task_result r)) in
      Some (list_append w events
              (mkEvent "progress" [("step", EVal (PyStr "publishing")); ("progress", EVal (PyInt 100));
                                   ("result", EDict result)]))
  | Some (Raised msg _ evs) =>
      let w := fold_left (on_event tid events) evs w in
      let w := update_task w tid (fun r => mkTask "failed" (task_events r) (task_result r)) in
      let w := update_task w tid (fun r => mkTask (task_status r) (task_events r)
                 (Some [("status", PyStr "failed"); ("failure_reason", PyStr msg)])) in
      Some (list_append w events (mkEvent "error" [("message", EVal (PyStr msg))]))
  | Some (Continue _) => None
  end.

End RunTask.

(* ------------------------------------------------------------------ *)
(** ** dot_parser.py *)

Module Dot.

Definition chr (n : nat) : ascii := ascii_of_nat n.
Definition is_chr (n : nat) (c : ascii) : bool := Nat.eqb (nat_of_ascii c) n.

(** Regex [\w] on ASCII: letters, digits and underscore. *)
Definition is_word (c : ascii) : bool :=
  let n := nat_of_ascii c in
  (Nat.leb 48 n && Nat.leb n 57) || (Nat.leb 65 n && Nat.leb n 90) ||
  (Nat.leb 97 n && Nat.leb n 122) || Nat.eqb n 95.

Definition is_digit (c : ascii) : bool :=
  let n := nat_of_ascii c in Nat.leb 48 n && Nat.leb n 57.

(** The longest prefix whose characters satisfy [p], and the rest. *)
Fixpoint span (p : ascii -> bool) (s : string) : string * string :=
  match s with
  | EmptyString => ("", "")
  | String c r => if p c then let '(a, b) := span p r in (String c a, b) else ("", s)
  end.

(** [re.sub(r"//[^\n]*", "", text)]. *)
Fixpoint strip_line_comments (in_comment : bool) (s : string) : string :=
  match s with
  | EmptyString => EmptyString
  | String c r =>
      if in_comment then
        if is_chr 10 c then String c (strip_line_comments false r)
        else strip_line_comments true r
      else if is_chr 47 c then
        match r with
        | String c2 r2 => if is_chr 47 c2 then strip_line_comments true r2
                          else String c (strip_line_comments false r)
        | EmptyString => String c EmptyString
        end
      else String c (strip_line_comments false r)
  end.

(** [re.sub(r"/\*.*?\*/", "", text, flags=re.DOTALL)]. *)
Fixpoint strip_block_comments (fuel : nat) (s : string) : string :=
  match fuel with
  | O => s
  | S f =>
      match s with
      | EmptyString => EmptyString
      | String c r =>
          if String.prefix "/*" s then
            match Py.split_once (Py.drop 2 s) "*/" with
            | Some (_, after) => strip_block_comments f after
            | None => String c (strip_block_comments f r)
            end
          else String c (strip_block_comments f r)
      end
  end.

Definition _strip_comments (text : string) : string :=
  let t := strip_line_comments false text in
  strip_block_comments (String.length t) t.

(** [s.replace(old, new)] for a non-empty [old]. *)
Fixpoint replace_fuel (fuel : nat) (old new s : string) : string :=
  match fuel with
  | O => s
  | S f =>
      match Py.split_once s old with
      | Some (a, b) => a ++ new ++ replace_fuel f old new b
      | None => s
      end
  end.

Definition replace (old new s : string) : string :=
  replace_fuel (S (String.length s)) old new s.

Definition bslash : string := String (chr 92) "".
Definition dq : string := String (chr 34) "".

(** Digits with single underscores between them ([int()] and [float()]
    accept [1_000]); the digit values, or [None]. *)
Fixpoint digitpart_aux (after_digit : bool) (s : list ascii) : option (list nat) :=
  match s with
  | [] => if after_digit then Some [] else None
  | c :: r =>
      if is_digit c then
        match digitpart_aux true r with
        | Some ds => Some ((nat_of_ascii c - 48)%nat :: ds)
        | None => None
        end
      else if is_chr 95 c && after_digit then
        match r with
        | d :: _ => if is_digit d then digitpart_aux false r else None
        | [] => None
        end
      else None
  end.

Definition digitpart (s : list ascii) : option (list nat) :=
  match s with [] => None | _ => digitpart_aux false s end.

Definition digits_value (ds : list nat) : Z :=
  fold_left (fun acc d => (acc * 10 + Z.of_nat d)%Z) ds 0%Z.

Definition split_sign (s : list ascii) : bool * list ascii :=
  match s with
  | c :: r => if is_chr 45 c then (true, r) else if is_chr 43 c then (false, r) else (false, s)
  | [] => (false, s)
  end.

(** [int(s)] for a string: surrounding whitespace, an optional sign and
    decimal digits. *)
Definition py_int_of_str (s : string) : option Z :=
  let '(neg, body) := split_sign (list_ascii_of_string (Py.strip s)) in
  match digitpart body with
  | Some ds => Some (if neg then - digits_value ds else digits_value ds)%Z
  | None => None
  end.


Fixpoint split_at_char (p : ascii -> bool) (s : list ascii) : list ascii * option (list ascii) :=
  match s with
  | [] => ([], None)
  | c :: r => if p c then ([], Some r)
              else let '(a, b) := split_at_char p r in (c :: a, b)
  end.

Definition opt_digitpart (s : list ascii) : option (list nat) :=
  match s with [] => Some [] | _ => digitpart s end.

Definition py_float_of_str (s : string) : option floatlit :=
  let '(neg, body) := split_sign (list_ascii_of_string (Py.strip s)) in
  let low := Py.lower (string_of_list_ascii body) in
  if String.eqb low "inf" || String.eqb low "infinity" then Some (FInf neg)
  else if String.eqb low "nan" then Some FNaN
  else
    let '(mant, e) := split_at_char (fun c => is_chr 101 c || is_chr 69 c) body in
    let exp := match e with
               | None => Some 0%Z
               | Some es => let '(eneg, eb) := split_sign es in
                            match digitpart eb with
                            | Some ds => Some (if eneg then - digits_value ds else digits_value ds)%Z
                            | None => None
                            end
               end in
    let '(ip, fp) := split_at_char (is_chr 46) mant in
    match exp, fp with
    | Some x, None =>
        match digitpart ip with Some ds => Some (FNum neg ds [] x) | None => None end
    | Some x, Some fr =>
        match opt_digitpart ip, opt_digitpart fr with
        | Some a, Some b => if (Nat.eqb (length a) 0 && Nat.eqb (length b) 0)%bool then None
                            else Some (FNum neg a b x)
        | _, _ => None
        end
    | None, _ => None
    end.

(** [int(x)] of a float. *)

Definition float_trunc (f : floatlit) : option Z :=
  match f with
  | FNum neg a b x =>
      let m := digits_value (a ++ b) in
      let e := (x - Z.of_nat (length b))%Z in
      let v := if (0 <=? e)%Z then (m * 10 ^ e)%Z else (m / 10 ^ (- e))%Z in
      Some (if neg then - v else v)%Z
  | _ => None
  end.

(** [_parse_value]. *)
Definition _parse_value (s0 : string) : pyval :=
  let s := Py.strip s0 in
  if String.prefix dq s && String.prefix dq (Py.rev_str s) then
    let inner := Py.slice 1 (String.length s - 1) s in
    PyStr (replace (bslash ++ bslash) bslash
            (replace (bslash ++ dq) dq
              (replace (bslash ++ "t") (String (chr 9) "")
                (replace (bslash ++ "n") (String (chr 10) "") inner))))
  else if String.eqb (Py.lower s) "true" then PyBool true
  else if String.eqb (Py.lower s) "false" then PyBool false
  else match py_int_of_str s with
       | Some z => PyInt z
       | None =>
           match py_float_of_str s with
           | Some f => PyFloat s f
           | None => PyStr s
           end
       end.

(** [part.partition("=")] then [attrs[k.strip()] = _parse_value(v.strip())]
    when the part contains [=]. *)
Definition add_part (attrs : gmap string pyval) (part : string) : gmap string pyval :=
  match Py.split_once part "=" with
  | Some (k, v) => <[Py.strip k := _parse_value (Py.strip v)]> attrs
  | None => attrs
  end.

(** The character loop of [_parse_attr_block]; [cur] is [current] in
    reverse (its head is [current[-1]]). *)
Fixpoint attr_scan (attrs : gmap string pyval) (cur : list ascii) (in_quote : bool)
    (s : string) : gmap string pyval :=
  match s with
  | EmptyString =>
      match cur with
      | [] => attrs
      | _ => add_part attrs (Py.strip (string_of_list_ascii (rev cur)))
      end
  | String c r =>
      if is_chr 34 c && (match cur with [] => true | l :: _ => negb (is_chr 92 l) end) then
        attr_scan attrs (c :: cur) (negb in_quote) r
      else if is_chr 44 c && negb in_quote then
        attr_scan (add_part attrs (Py.strip (string_of_list_ascii (rev cur)))) [] in_quote r
      else attr_scan attrs (c :: cur) in_quote r
  end.

Definition _parse_attr_block (content0 : string) : gmap string pyval :=
  let content := Py.strip content0 in
  if Py.is_empty content || String.eqb content "[]" then ∅
  else
    let inner := Py.strip (Py.slice 1 (String.length content - 1) content) in
    attr_scan ∅ [] false inner.

(** [str(attrs.get(k, default))]. *)
Definition attr_str (attrs : gmap string pyval) (k default : string) : string :=
  match attrs !! k with Some v => py_str v | None => default end.

(** [int(attrs.get("weight", 0))]; [None] where [int()] raises. *)
Definition attr_weight (attrs : gmap string pyval) : option Z :=
  match attrs !! "weight" with
  | None => Some 0%Z
  | Some (PyInt z) => Some z
  | Some (PyBool b) => Some (if b then 1 else 0)%Z
  | Some (PyStr s) => py_int_of_str s
  | Some (PyFloat _ f) => float_trunc f
  | Some PyNone => None
  end.

Definition mk_edge (from_id to_id : string) (attrs : gmap string pyval) : option Edge.t :=
  match attr_weight attrs with
  | Some w => Some (Edge.mk from_id to_id (attr_str attrs "label" "") (attr_str attrs "condition" "") w)
  | None => None
  end.

Definition mk_node (nid : string) (attrs : gmap string pyval) : Node.t :=
  Node.mk nid (attr_str attrs "label" nid) (attr_str attrs "shape" "box")
          (attr_str attrs "type" "") (attr_str attrs "prompt" "") attrs.

(** *** The regular expressions, as matchers returning the groups and the
    unmatched suffix (the match end is [len(rest) - len(suffix)]). *)

(** [\w+], greedy. *)
Definition m_word (s : string) : option (string * string) :=
  let '(w, r) := span is_word s in
  if Py.is_empty w then None else Some (w, r).

(** [\s*\[(.*?)\]] with DOTALL: the text up to the first [\]]. *)
Definition m_bracket (s : string) : option (string * string) :=
  match Py.lstrip s with
  | String c r => if is_chr 91 c then Py.split_once r "]" else None
  | EmptyString => None
  end.

(** [;?]. *)
Definition m_opt_semi (s : string) : string :=
  match s with
  | String c r => if is_chr 59 c then r else s
  | EmptyString => s
  end.

(** [<kw>\s*\[(.*?)\]] for [kw] in [graph], [node], [edge]. *)
Definition m_block (kw s : string) : option (string * string) :=
  if String.prefix kw s then m_bracket (Py.drop (String.length kw) s) else None.

(** [(\w+)\s*=\s*([^;]+);?]; when only whitespace lies between [=] and
    the next [;], the regex backtracks and [[^;]+] takes its last blank. *)
Definition m_decl (s : string) : option (string * string * string) :=
  match m_word s with
  | None => None
  | Some (k, r1) =>
      match Py.lstrip r1 with
      | String c r2 =>
          if is_chr 61 c then
            let r3 := Py.lstrip r2 in
            let '(v, r4) := span (fun x => negb (is_chr 59 x)) r3 in
            if negb (Py.is_empty v) then Some (k, v, m_opt_semi r4)
            else
              let nws := (String.length r2 - String.length r3)%nat in
              if Nat.eqb nws 0 then None
              else Some (k, Py.slice (nws - 1) nws r2, m_opt_semi r3)
          else None
      | EmptyString => None
      end
  end.

(** [(\w+)\s*\[]: the identifier and the text after the bracket. *)
Definition m_node_start (s : string) : option (string * string) :=
  match m_word s with
  | Some (nid, r) =>
      match Py.lstrip r with
      | String c r2 => if is_chr 91 c then Some (nid, r2) else None
      | EmptyString => None
      end
  | None => None
  end.

(** The quote-aware scan for the closing [\]] of a node's attribute block,
    starting after the [\[]; [prev] is [rest[i - 1]]. *)
Fixpoint scan_close (in_quote : bool) (prev : ascii) (s : string) : option (string * string) :=
  match s with
  | EmptyString => None
  | String c r =>
      if is_chr 34 c && negb (is_chr 92 prev) then
        match scan_close (negb in_quote) c r with
        | Some (a, b) => Some (String c a, b)
        | None => None
        end
      else if is_chr 93 c && negb in_quote then Some ("", r)
      else
        match scan_close in_quote c r with
        | Some (a, b) => Some (String c a, b)
        | None => None
        end
  end.

(** [->\s*(\w+)(\s*\[(.*?)\])?;?]: target, optional block, suffix. *)
Definition m_arrow (s : string) : option (string * option string * string) :=
  if String.prefix "->" s then
    match m_word (Py.lstrip (Py.drop 2 s)) with
    | Some (to_id, r) =>
        match m_bracket r with
        | Some (blk, r2) => Some (to_id, Some blk, m_opt_semi r2)
        | None => Some (to_id, None, m_opt_semi r)
        end
    | None => None
    end
  else None.

(** [(\w+)\s*->\s*(\w+)(\s*\[(.*?)\])?;?]. *)
Definition m_edge (s : string) : option (string * string * option string * string) :=
  match m_word s with
  | Some (from_id, r) =>
      match m_arrow (Py.lstrip r) with
      | Some (to_id, blk, r2) => Some (from_id, to_id, blk, r2)
      | None => None
      end
  | None => None
  end.

(** [(\w+)\s*;?\s*]. *)
Definition m_node_bare (s : string) : option (string * string) :=
  match m_word s with
  | Some (nid, r) => Some (nid, Py.lstrip (m_opt_semi (Py.lstrip r)))
  | None => None
  end.

(** [digraph\s+(\w+)\s*\{]. *)
Definition m_digraph (s : string) : option (string * string) :=
  if String.prefix "digraph" s then
    let r := Py.drop 7 s in
    let r1 := Py.lstrip r in
    if Nat.eqb (String.length r1) (String.length r) then None
    else match m_word r1 with
         | Some (name, r2) =>
             match Py.lstrip r2 with
             | String c r3 => if is_chr 123 c then Some (name, r3) else None
             | EmptyString => None
             end
         | None => None
         end
  else None.

(** *** [parse_dot] *)

Definition set_graph_attrs (g : Graph.t) (ga : gmap string pyval) : Graph.t :=
  Graph.mk (Graph.name g) (Graph.goal g) (Graph.label g) (Graph.nodes g) (Graph.edges g) ga.
Definition set_goal (g : Graph.t) (x : string) : Graph.t :=
  Graph.mk (Graph.name g) x (Graph.label g) (Graph.nodes g) (Graph.edges g) (Graph.graph_attrs g).
Definition set_label (g : Graph.t) (x : string) : Graph.t :=
  Graph.mk (Graph.name g) (Graph.goal g) x (Graph.nodes g) (Graph.edges g) (Graph.graph_attrs g).
(** [if nid not in graph.nodes: graph.nodes[nid] = ...]. *)
Definition add_node (g : Graph.t) (nid : string) (attrs : gmap string pyval) : Graph.t :=
  match Graph.get_node g nid with
  | Some _ => g
  | None => Graph.mk (Graph.name g) (Graph.goal g) (Graph.label g)
                     (Graph.nodes g ++ [(nid, mk_node nid attrs)])%list
                     (Graph.edges g) (Graph.graph_attrs g)
  end.
Definition add_edge (g : Graph.t) (e : Edge.t) : Graph.t :=
  Graph.mk (Graph.name g) (Graph.goal g) (Graph.label g) (Graph.nodes g)
           (Graph.edges g ++ [e])%list (Graph.graph_attrs g).

(** The match end of a matcher that left [r] of [rest]. *)
Definition match_end (rest r : string) : nat := (String.length rest - String.length r)%nat.

(** The chained-edge loop (lines 176-194): while [rest[pos:].lstrip()]
    starts with [->\s*\w+], emit the next hop with [attrs] and advance
    [pos] by the end of [next_arrow] in the stripped text. Returns the
    graph and [pos]; [None] where [int()] raises. *)
Fixpoint chain (fuel : nat) (rest : string) (pos : nat) (to_id : string)
    (attrs : gmap string pyval) (g : Graph.t) : option (Graph.t * nat) :=
  match fuel with
  | O => Some (g, pos)
  | S f =>
      let rest_check := Py.lstrip (Py.drop pos rest) in
      match m_arrow rest_check with
      | Some (next_to, _, r) =>
          match mk_edge to_id next_to attrs with
          | Some e => chain f rest (pos + match_end rest_check r) next_to attrs (add_edge g e)
          | None => None
          end
      | None => Some (g, pos)
      end
  end.

(** The statement loop [while pos < len(rest)]; [None] where it raises. *)
Fixpoint parse_loop (fuel : nat) (rest0 : string) (pos : nat) (g : Graph.t)
    (node_defaults edge_defaults : gmap string pyval) : option Graph.t :=
  match fuel with
  | O => Some g
  | S f =>
    if negb (Nat.ltb pos (String.length rest0)) then Some g else
    let rest := Py.lstrip (Py.drop pos rest0) in
    if Py.is_empty rest then Some g else
    match m_block "graph" rest with
    | Some (blk, r) =>
        let ga := _parse_attr_block ("[" ++ blk ++ "]") in
        let g := set_graph_attrs g ga in
        let g := set_goal g (attr_str ga "goal" "") in
        let g := set_label g (attr_str ga "label" "") in
        parse_loop f rest (match_end rest r) g node_defaults edge_defaults
    | None =>
    match m_decl rest with
    | Some (k, v0, r) =>
        let v := Py.strip v0 in
        let g := set_graph_attrs g (<[k := _parse_value v]> (Graph.graph_attrs g)) in
        let g := if String.eqb k "goal" then set_goal g (py_str (_parse_value v)) else g in
        let g := if String.eqb k "label" then set_label g (py_str (_parse_value v)) else g in
        parse_loop f rest (match_end rest r) g node_defaults edge_defaults
    | None =>
    match m_block "node" rest with
    | Some (blk, r) =>
        parse_loop f rest (match_end rest r) g (_parse_attr_block ("[" ++ blk ++ "]")) edge_defaults
    | None =>
    match m_block "edge" rest with
    | Some (blk, r) =>
        parse_loop f rest (match_end rest r) g node_defaults (_parse_attr_block ("[" ++ blk ++ "]"))
    | None =>
    match m_node_start rest with
    | Some (nid, after) =>
        match scan_close false (chr 91) after with
        | Some (inner, r) =>
            let attrs := _parse_attr_block ("[" ++ inner ++ "]") ∪ node_defaults in
            parse_loop f rest (match_end rest r) (add_node g nid attrs) node_defaults edge_defaults
        | None => parse_loop f rest (String.length rest) g node_defaults edge_defaults
        end
    | None =>
    match m_edge rest with
    | Some (from_id, to_id, blk, r) =>
        let attrs := match blk with
                     | Some b => if Py.is_empty b then edge_defaults
                                 else _parse_attr_block ("[" ++ b ++ "]") ∪ edge_defaults
                     | None => edge_defaults
                     end in
        match mk_edge from_id to_id attrs with
        | None => None
        | Some e =>
            match chain (String.length rest) rest (match_end rest r) to_id attrs (add_edge g e) with
            | Some (g, pos) => parse_loop f rest pos g node_defaults edge_defaults
            | None => None
            end
        end
    | None =>
    match m_node_bare rest with
    | Some (nid, r) =>
        parse_loop f rest (match_end rest r) (add_node g nid node_defaults) node_defaults edge_defaults
    | None =>
        (* [pos += 1]: [pos] still holds the offset used to cut [rest] *)
        parse_loop f rest (S pos) g node_defaults edge_defaults
    end end end end end end end
  end.

(** [parse_dot] on source text; [None] where it raises [ValueError]
    (no [digraph Identifier {] header, or an [int()] of a weight). *)
Definition parse_dot (source : string) : option Graph.t :=
  let text := Py.strip (_strip_comments source) in
  match m_digraph text with
  | None => None
  | Some (name, r) =>
      let rest := Py.rstrip r in
      let rest := if String.prefix "}" (Py.rev_str rest)
                  then Py.slice 0 (String.length rest - 1) rest else rest in
      parse_loop (S (S (String.length rest))) rest 0
                 (Graph.mk name "" "" [] [] ∅) ∅ ∅
  end.

End Dot.

(* ------------------------------------------------------------------ *)
(** ** engine.py: handler resolution *)

(** The handlers registered in [PipelineEngine._handlers], by kind. *)
Inductive HandlerKind := HStart | HExit | HCodergen | HTool | HConditional.

(** [self._handlers.get(t)]. *)
Definition handlers_get (t : string) : option HandlerKind :=
  if String.eqb t "start" then Some HStart
  else if String.eqb t "exit" then Some HExit
  else if String.eqb t "codergen" then Some HCodergen
  else if String.eqb t "tool" then Some HTool
  else if String.eqb t "conditional" then Some HConditional
  else None.

Definition SHAPE_TO_TYPE : list (string * string) :=
  [("Mdiamond", "start"); ("Msquare", "exit"); ("box", "codergen");
   ("parallelogram", "tool"); ("diamond", "conditional"); ("hexagon", "wait.human");
   ("component", "parallel"); ("tripleoctagon", "parallel.fan_in"); ("house", "stack.manager_loop")].

(** [PipelineEngine._resolve_handler]: the kind of the handler it returns. *)
Definition _resolve_handler (n : Node.t) : HandlerKind :=
  match (if Py.is_empty (Node.type n) then None else handlers_get (Node.type n)) with
  | Some h => h
  | None =>
      let handler_type := match Graph.assoc (Node.shape n) SHAPE_TO_TYPE with
                          | Some t => t | None => "codergen" end in
      match handlers_get handler_type with Some h => h | None => HCodergen end
  end.

(* ------------------------------------------------------------------ *)
(** ** handlers/codergen.py: [CodergenHandler.execute] *)

(** What a call [self.backend(node, prompt, context)] does: return an
    [Outcome], return any other value (whose [str] is given), or raise (with
    the [str] of the exception).  Writes under [logs_root] are assumed to
    succeed and are not modelled. *)
Inductive BackendResult :=
| BOutcome (o : Outcome)
| BText (s : string)
| BRaise (msg : string).

(** The prompt after [$goal] expansion. *)
Definition codergen_prompt (n : Node.t) (ctx : Context) (g : Graph.t) : string :=
  let prompt := if Py.is_empty (Node.prompt n) then Node.label n else Node.prompt n in
  let goal := let v := get_string ctx "graph.goal" in if Py.is_empty v then Graph.goal g else v in
  Dot.replace "$goal" goal prompt.

(** The outcome built from a response text. *)
Definition codergen_completed (n : Node.t) (response_text : string) : Outcome :=
  mkOutcome SUCCESS "" []
    (<["last_stage" := PyStr (Node.id n)]>
       {[ "last_response" := PyStr (if Py.is_empty response_text then ""
                                    else Py.take 200 response_text) ]})
    ("Stage completed: " ++ Node.id n) "".

(** [execute]; [backend] is [None] when [self.backend] is falsy. *)
Definition codergen_execute (backend : option (Node.t -> string -> Context -> BackendResult))
    (n : Node.t) (ctx : Context) (g : Graph.t) : Outcome :=
  let prompt := codergen_prompt n ctx g in
  match backend with
  | Some b =>
      match b n prompt ctx with
      | BOutcome o => o
      | BText t => codergen_completed n t
      | BRaise m => mkOutcome FAIL "" [] ∅ "" m
      end
  | None => codergen_completed n ("[Simulated] Response for stage: " ++ Node.id n)
  end.

(* ------------------------------------------------------------------ *)
(** ** services/run_pipeline.py: [list_tasks] *)

(** The index a Python slice bound [i] denotes in a sequence of length [n]. *)
Definition py_index (i n : Z) : Z := if (i <? 0)%Z then Z.max 0 (i + n) else Z.min i n.

(** [l[i:j]] with step 1. *)
Definition py_slice {A} (l : list A) (i j : Z) : list A :=
  let n := Z.of_nat (length l) in
  let a := py_index i n in
  let b := py_index j n in
  firstn (Z.to_nat (b - a)) (skipn (Z.to_nat a) l).

(** [d.get(k)]. *)
Definition dict_get (d : list (string * pyval)) (k : string) : pyval :=
  match Graph.assoc k d with Some v => v | None => PyNone end.

(** The row [list_tasks] builds for one [(tid, data)] item; a result dict
    is truthy when it is non-empty. *)
Definition task_row (item : string * TaskRec) : list (string * pyval) :=
  let '(tid, data) := item in
  ([("task_id", PyStr tid); ("status", PyStr (task_status data))] ++
   match task_result data with
   | Some (_ :: _ as result) =>
       [("feishu_doc_url", dict_get result "feishu_doc_url");
        ("failure_reason", dict_get result "failure_reason")]
   | _ => []
   end)%list.

(** [list_tasks(page, size)]: the [tasks] and [total] fields it returns. *)
Definition list_tasks (page size : Z) (w : World) : list (list (string * pyval)) * Z :=
  let items := rev (task_store w) in
  let total := Z.of_nat (length items) in
  let start := ((page - 1) * size)%Z in
  let end_ := (start + size)%Z in
  (map task_row (py_slice items start end_), total).

(* ------------------------------------------------------------------ *)
(** ** services/run_pipeline.py: [_append_with_isolation] *)

Section Isolation.

Variable Block : Type.
(** [json.dumps(block, ensure_ascii=False)]. *)
Variable json_dumps : Block -> string.
(** [append_document_blocks(token, document_id, root_id, batch)] on a
    document whose children are [doc]: [None] when the call returns, and
    the batch is then added after [doc]; [Some msg] when it raises with
    message [msg], and the document is then unchanged. *)
Variable append_document_blocks : list Block -> list Block -> option string.

Definition BATCH_SIZE : nat := 50.

(** [_isolate_and_raise]: the final children of the document and the
    message of the [RuntimeError] it raises, if any.  [fuel] bounds the
    recursion depth; [length blocks] is enough. *)
Fixpoint isolate_fuel (fuel : nat) (doc blocks : list Block) (prefix : string)
  : list Block * option string :=
  match blocks with
  | [] => (doc, Some (prefix ++ " invalid param but empty batch"))
  | [b] => (doc, Some (prefix ++ " Feishu rejected a single block (invalid param). offending_block="
                        ++ Py.take 4000 (json_dumps b)))
  | _ =>
      match fuel with
      | O => (doc, None)
      | S f =>
          let mid := Nat.div (length blocks) 2 in
          let left := firstn mid blocks in
          let right := skipn mid blocks in
          match append_document_blocks doc left with
          | Some _ => isolate_fuel f doc left (prefix ++ " left")
          | None =>
              let doc := (doc ++ left)%list in
              match append_document_blocks doc right with
              | Some _ => isolate_fuel f doc right (prefix ++ " right")
              | None => ((doc ++ right)%list, None)
              end
          end
      end
  end.

Definition _isolate_and_raise (doc blocks : list Block) (prefix : string) : list Block * option string :=
  isolate_fuel (length blocks) doc blocks prefix.

(** The [for i in range(0, len(blocks), BATCH_SIZE)] loop of
    [_append_with_isolation], from offset [i]. *)
Fixpoint append_loop (fuel i : nat) (doc blocks : list Block) : list Block * option string :=
  match fuel with
  | O => (doc, None)
  | S f =>
      if Nat.leb (length blocks) i then (doc, None) else
      let batch := firstn BATCH_SIZE (skipn i blocks) in
      match append_document_blocks doc batch with
      | None => append_loop f (i + BATCH_SIZE) (doc ++ batch)%list blocks
      | Some msg =>
          if negb (Py.contains "invalid param" msg) && negb (Py.contains "1770001" msg)
          then (doc, Some msg)
          else match _isolate_and_raise doc batch ("batch_offset=" ++ Py.Z_to_str (Z.of_nat i)) with
               | (d, Some e) => (d, Some e)
               | (d, None) => append_loop f (i + BATCH_SIZE) d blocks
               end
      end
  end.

Definition _append_with_isolation (doc blocks : list Block) : list Block * option string :=
  append_loop (length blocks) 0 doc blocks.

End Isolation.

Arguments isolate_fuel {Block} json_dumps append_document_blocks fuel doc blocks prefix.
Arguments _isolate_and_raise {Block} json_dumps append_document_blocks doc blocks prefix.
Arguments append_loop {Block} json_dumps append_document_blocks fuel i doc blocks.
Arguments _append_with_isolation {Block} json_dumps append_document_blocks doc blocks.

(** The text [_isolate_and_raise] puts after its prefix when one block is
    rejected. *)
Definition single_block_error {Block} (json_dumps : Block -> string) (b : Block) : string :=
  " Feishu rejected a single block (invalid param). offending_block=" ++ Py.take 4000 (json_dumps b).

(* ------------------------------------------------------------------ *)
(** ** The specification side *)

(** An edge of [grp] whose key [(-weight, to_node)] is least in [grp]. *)
Definition is_best (grp : list Edge.t) (e : Edge.t) : Prop :=
  In e grp /\ forall e', In e' grp -> key_le e e' = true.

(** The five-group priority of edge selection, as the spec words it. *)
Definition priority_choice (edges : list Edge.t) (o : Outcome) (ctx : Context)
    (e : Edge.t) : Prop :=
  let matched := List.filter (fun e' => negb (Py.is_empty (Edge.condition e')) &&
                                   evaluate_condition (Edge.condition e') o ctx) edges in
  let labelled :=
    if Py.is_empty (preferred_label o) then []
    else List.filter (fun e' => String.eqb (_normalize_label (Edge.label e'))
                                      (_normalize_label (preferred_label o))) edges in
  let suggested :=
    flat_map (fun sid => List.filter (fun e' => String.eqb (Edge.to_node e') sid) edges)
             (suggested_next_ids o) in
  let unguarded := List.filter (fun e' => Py.is_empty (Edge.condition e')) edges in
  match matched, labelled, suggested, unguarded with
  | _ :: _, _, _, _ => is_best matched e
  | [], e' :: _, _, _ => e = e'
  | [], [], e' :: _, _ => e = e'
  | [], [], [], _ :: _ => is_best unguarded e
  | [], [], [], [] => is_best edges e
  end.

(** Normalisation as the spec words it: trim, lowercase, then strip one
    leading prefix [[X] ], [X) ] or [X - ] made of one character and its
    delimiter. *)
Definition spec_normalize (label : string) : string :=
  let s := Py.lower (Py.strip label) in
  if String.prefix "[" s && String.eqb (Py.slice 2 4 s) "] " then Py.drop 4 s
  else if String.eqb (Py.slice 1 3 s) ") " then Py.drop 3 s
  else if String.eqb (Py.slice 1 4 s) " - " then Py.drop 4 s
  else s.

(** Normalisation as the amended claim words it, on characters: trim and
    lowercase; then (1) a text that starts with [[] and has a [\]] among its
    next three characters loses everything through the first [\]]; (2) a
    text whose second character is [)] loses its first two characters; (3)
    a text whose second and third characters are [ -] loses its first
    three; each removal is followed by a trim, and a step whose condition
    fails leaves the text alone. *)
Definition spec_bracket_step (s : list string) : list string :=
  match s with
  | o :: r =>
      if String.eqb o "[" then
        match r with
        | c1 :: r1 =>
            if String.eqb c1 "]" then Py.strip_l r1 else
            match r1 with
            | c2 :: r2 =>
                if String.eqb c2 "]" then Py.strip_l r2 else
                match r2 with
                | c3 :: r3 => if String.eqb c3 "]" then Py.strip_l r3 else s
                | [] => s
                end
            | [] => s
            end
        | [] => s
        end
      else s
  | [] => s
  end.

Definition spec_paren_step (s : list string) : list string :=
  match s with
  | _ :: c :: r => if String.eqb c ")" then Py.strip_l r else s
  | _ => s
  end.

Definition spec_dash_step (s : list string) : list string :=
  match s with
  | _ :: c1 :: c2 :: r => if String.eqb c1 " " && String.eqb c2 "-" then Py.strip_l r else s
  | _ => s
  end.

Definition amended_normalize (label : string) : string :=
  Py.of_chars (spec_dash_step (spec_paren_step (spec_bracket_step
    (map Py.lower (Py.strip_l (Py.chars label)))))).

(** A key the resolver cannot resolve: not one read from the Outcome, and
    the Context holds no value at any key the resolver consults. *)
Definition key_unresolved (key : string) (ctx : Context) : Prop :=
  let k := Py.strip key in
  k <> "outcome" /\ k <> "preferred_label" /\ ctx_get ctx k = None /\
  (String.prefix "context." k = true -> ctx_get ctx (Py.strip (Py.drop 9 k)) = None).

(** [c in s] for a one-character [c]. *)
Definition has_char (c : ascii) (s : string) : bool := existsb (Ascii.eqb c) (list_ascii_of_string s).



(* ================================================================== *)
(** * Example inputs *)

(** Edge selection: a guarded edge labelled [Yes] declared before an
    unguarded, heavier edge labelled [yes]. *)
Definition label_node : Node.t := Node.mk "n" "n" "box" "" "" ∅.
Definition label_e1 : Edge.t := Edge.mk "n" "x" "Yes" "outcome=fail" 0.
Definition label_e2 : Edge.t := Edge.mk "n" "y" "yes" "" 5.
Definition label_graph : Graph.t :=
  Graph.mk "G" "" "" [("n", label_node)] [label_e1; label_e2] ∅.
Definition label_outcome : Outcome := mkOutcome SUCCESS "yes" [] ∅ "" "".

(** A goal-gated node that failed, recorded before the run reaches [end]. *)
Definition gg_start : Node.t := Node.mk "start" "" "Mdiamond" "" "" ∅.
Definition gg_gate : Node.t := Node.mk "gate" "" "box" "" "" {["goal_gate" := PyBool true]}.
Definition gg_end : Node.t := Node.mk "end" "" "Msquare" "" "" ∅.
Definition gg_graph : Graph.t :=
  Graph.mk "G" "" "" [("start", gg_start); ("gate", gg_gate); ("end", gg_end)]
    [Edge.mk "start" "gate" "" "" 0; Edge.mk "gate" "end" "" "" 0] ∅.
Definition gg_outcome : Outcome := mkOutcome FAIL "" [] ∅ "" "check failed".
Definition gg_state : EState := mkEState "end" [("gate", gg_outcome)] (Some gg_outcome) ∅ [].
Definition gg_exec (n : Node.t) (c : Context) : Outcome * Context :=
  (mkOutcome SUCCESS "" [] ∅ "" "", c).

(** A stage that fails with a preferred label naming its only edge, whose
    guard is empty. *)
Definition fr_node : Node.t := Node.mk "n" "" "box" "" "" ∅.
Definition fr_x : Node.t := Node.mk "x" "" "box" "" "" ∅.
Definition fr_edge : Edge.t := Edge.mk "n" "x" "retry" "" 0.
Definition fr_graph : Graph.t := Graph.mk "G" "" "" [("n", fr_node); ("x", fr_x)] [fr_edge] ∅.
Definition fr_outcome : Outcome := mkOutcome FAIL "retry" [] ∅ "" "boom".
Definition fr_state : EState := mkEState "n" [] None ∅ [].
Definition fr_exec (n : Node.t) (c : Context) : Outcome * Context := (fr_outcome, c).

(** A tool node whose command exits with status 2 and prints nothing. *)
Definition tool_node : Node.t := Node.mk "t" "" "parallelogram" "tool" "" {["tool_command" := PyStr "make"]}.
Definition tool_proc (cmd cwd : pyval) : ProcResult := Completed 2 "" "".

(** A chained edge with a trailing attribute block, and a single edge with
    the same block. *)
Definition chain_src : string :=
  "digraph G { a -> b -> c [label=" ++ Dot.dq ++ "x" ++ Dot.dq ++ ", weight=3] }".
Definition single_src : string :=
  "digraph G { a -> b [label=" ++ Dot.dq ++ "x" ++ Dot.dq ++ ", weight=3] }".
Definition edge_summary (e : Edge.t) : string * string * string * Z :=
  (Edge.from_node e, Edge.to_node e, Edge.label e, Edge.weight e).
Definition parsed_edges (src : string) : option (list (string * string * string * Z)) :=
  option_map (fun g => map edge_summary (Graph.edges g)) (Dot.parse_dot src).

(** [run_task] on a pipeline [start -> a] whose stage [a] fails, and on a
    pipeline [start -> end]. *)
Definition rt_exec (n : Node.t) (c : Context) : Outcome * Context :=
  if String.eqb (Node.id n) "a" then (mkOutcome FAIL "" [] ∅ "" "boom", c)
  else (mkOutcome SUCCESS "" [] ∅ "" "", c).
Definition rt_fail_graph : Graph.t :=
  Graph.mk "G" "" "" [("start", gg_start); ("a", Node.mk "a" "" "box" "" "" ∅)]
    [Edge.mk "start" "a" "" "" 0] ∅.
Definition rt_ok_graph : Graph.t :=
  Graph.mk "G" "" "" [("start", gg_start); ("end", gg_end)] [Edge.mk "start" "end" "" "" 0] ∅.
Definition empty_world : World := mkWorld [] ∅ 0.
(** What a reader of the task store sees: the kinds of the events in the
    task's list, and the task's status. *)
Definition task_view (w : World) (tid : string) : option (list string) * option string :=
  (option_map (map ev_kind) (visible_events w tid),
   option_map task_status (Graph.assoc tid (task_store w))).
(** The kinds of the events the local [events] list of [run_task] holds at the end. *)
Definition local_kinds (w : World) (loc : nat) : list string := map ev_kind (heap_get w loc).

(** A pipeline [start -> end] at its start node. *)
Definition cs_state : EState := mkEState "start" [] None ∅ [].

(** A task store holding three tasks, the second one with a result. *)
Definition lt_world : World :=
  mkWorld [("t1", mkTask "completed" 0 None);
           ("t2", mkTask "failed" 1 (Some [("status", PyStr "failed"); ("failure_reason", PyStr "boom")]));
           ("t3", mkTask "running" 2 None)] ∅ 3.

(** Feishu stand-ins for [_append_with_isolation]: blocks are numbers;
    [iso_append] rejects every batch holding block 3, [size_append] every
    batch of three blocks or more. *)
Definition iso_dumps (b : nat) : string := Py.Z_to_str (Z.of_nat b).
Definition iso_accepted (b : nat) : bool := negb (Nat.eqb b 3).
Definition iso_append (doc batch : list nat) : option string :=
  if forallb iso_accepted batch then None else Some "code=1770001 invalid param".
Definition size_append (doc batch : list nat) : option string :=
  if Nat.leb 3 (length batch) then Some "code=1770001 invalid param" else None.

(* ================================================================== *)
(** * Properties *)

(** ** Ordering of edges *)

Lemma str_compare_refl (s : string) : String.compare s s = Eq.
Proof.
  induction s as [|a r IH]; simpl; [reflexivity|].
  unfold Ascii.compare. rewrite N.compare_refl. exact IH.
Qed.

Lemma str_leb_trans (s1 s2 s3 : string) :
  String.leb s1 s2 = true -> String.leb s2 s3 = true -> String.leb s1 s3 = true.
Proof.
  unfold String.leb.
  revert s2 s3; induction s1 as [|a1 r1 IH]; intros [|a2 r2] [|a3 r3]; simpl; try easy.
  unfold Ascii.compare; intros H1 H2.
  destruct (N.compare_spec (N_of_ascii a1) (N_of_ascii a2)) as [E12|E12|E12];
  try discriminate H1;
  destruct (N.compare_spec (N_of_ascii a2) (N_of_ascii a3)) as [E23|E23|E23];
  try discriminate H2;
  first
    [ assert (N.compare (N_of_ascii a1) (N_of_ascii a3) = Eq) as ->
        by (apply N.compare_eq_iff; lia);
      exact (IH r2 r3 H1 H2)
    | assert (N.compare (N_of_ascii a1) (N_of_ascii a3) = Lt) as ->
        by (apply N.compare_lt_iff; lia);
      reflexivity ].
Qed.

Lemma key_le_refl (e : Edge.t) : key_le e e = true.
Proof.
  unfold key_le, String.leb. rewrite str_compare_refl, Z.ltb_irrefl, Z.eqb_refl. reflexivity.
Qed.

Lemma key_le_total (a b : Edge.t) : key_le a b = true \/ key_le b a = true.
Proof.
  unfold key_le.
  destruct (Z.lt_trichotomy (Edge.weight a) (Edge.weight b)) as [H|[H|H]].
  - right. apply orb_true_intro; left. apply Z.ltb_lt; exact H.
  - rewrite H, Z.ltb_irrefl, Z.eqb_refl. simpl.
    destruct (String.leb_total (Edge.to_node a) (Edge.to_node b)); auto.
  - left. apply orb_true_intro; left. apply Z.ltb_lt; exact H.
Qed.

Lemma key_le_trans (a b c : Edge.t) : key_le a b = true -> key_le b c = true -> key_le a c = true.
Proof.
  unfold key_le. intros H1 H2.
  apply orb_true_iff in H1, H2. apply orb_true_iff.
  destruct H1 as [H1|H1]; destruct H2 as [H2|H2];
  try apply andb_true_iff in H1; try apply andb_true_iff in H2;
  repeat match goal with
         | H : (_ <? _)%Z = true |- _ => apply Z.ltb_lt in H
         | H : _ /\ _ |- _ => destruct H
         | H : (_ =? _)%Z = true |- _ => apply Z.eqb_eq in H
         end.
  - left. apply Z.ltb_lt. lia.
  - left. apply Z.ltb_lt. lia.
  - left. apply Z.ltb_lt. lia.
  - right. apply andb_true_iff. split; [apply Z.eqb_eq; lia|].
    eapply str_leb_trans; eassumption.
Qed.

Lemma sorted_by_key_nil : sorted_by_key [] = [].
Proof. reflexivity. Qed.

(** The head of the stable sort is a least element; the sort of a
    non-empty list is non-empty. *)
Lemma sorted_by_key_head (l : list Edge.t) :
  l <> [] -> exists h r, sorted_by_key l = h :: r /\ is_best l h.
Proof.
  induction l as [|x l IH]; intros Hne; [congruence|].
  destruct l as [|y l'].
  - exists x, []. split; [reflexivity|]. split; [left; reflexivity|].
    intros e' [<-|[]]. apply key_le_refl.
  - destruct (IH ltac:(discriminate)) as (h & r & Hs & Hin & Hmin).
    change (sorted_by_key (x :: y :: l')) with (ins x (sorted_by_key (y :: l'))).
    rewrite Hs. simpl. destruct (key_le x h) eqn:E.
    + exists x, (h :: r). split; [reflexivity|]. split; [left; reflexivity|].
      intros e' [<-|He']; [apply key_le_refl|].
      eapply key_le_trans; [exact E|]. apply Hmin; exact He'.
    + exists h, (ins x r). split; [reflexivity|]. split; [right; exact Hin|].
      intros e' [<-|He']; [|apply Hmin; exact He'].
      destruct (key_le_total x h) as [H|H]; [congruence|exact H].
Qed.

Lemma sorted_by_key_nonempty (l : list Edge.t) : l <> [] -> sorted_by_key l <> [].
Proof.
  intros Hne. destruct (sorted_by_key_head l Hne) as (h & r & -> & _). discriminate.
Qed.

Lemma find_head_filter {A} (p : A -> bool) (l : list A) : find p l = head (List.filter p l).
Proof.
  induction l as [|x l IH]; simpl; [reflexivity|]. destruct (p x); simpl; [reflexivity|exact IH].
Qed.

Lemma head_none_nil {A} (l : list A) : head l = None -> l = [].
Proof. destruct l; simpl; congruence. Qed.

Lemma first_suggested_flat_map (sids : list string) (edges : list Edge.t) :
  first_suggested sids edges =
  head (flat_map (fun sid => List.filter (fun e => String.eqb (Edge.to_node e) sid) edges) sids).
Proof.
  induction sids as [|sid r IH]; simpl; [reflexivity|].
  rewrite find_head_filter.
  destruct (List.filter (fun e => String.eqb (Edge.to_node e) sid) edges) as [|e l]; simpl.
  - exact IH.
  - reflexivity.
Qed.

(** [select_edge] on a node with outgoing edges [edges]. *)
Lemma select_edge_unfold (node : Node.t) (o : Outcome) (ctx : Context) (g : Graph.t) :
  select_edge node o ctx g =
  match Graph.outgoing_edges g (Node.id node) with
  | [] => None
  | edges =>
    match sorted_by_key (guard_matched edges o ctx) with
    | e :: _ => Some e
    | [] =>
      match (if negb (Py.is_empty (preferred_label o)) then
               find (fun e => String.eqb (_normalize_label (Edge.label e))
                                         (_normalize_label (preferred_label o))) edges
             else None) with
      | Some e => Some e
      | None =>
        match first_suggested (suggested_next_ids o) edges with
        | Some e => Some e
        | None =>
          match sorted_by_key (List.filter (fun e => Py.is_empty (Edge.condition e)) edges) with
          | e :: _ => Some e
          | [] => head (sorted_by_key edges)
          end
        end
      end
    end
  end.
Proof.
  unfold select_edge. destruct (Graph.outgoing_edges g (Node.id node)); reflexivity.
Qed.

(** *** C1 *)

(** C1: edge selection follows the five-group priority: the least
    guard-matched edge by (weight DESC, to_node ASC); else the first edge
    whose normalised label equals the normalised non-empty preferred label;
    else, for the suggested ids in order, the first edge to that id; else
    the least unguarded edge; else the least edge. With no outgoing edge it
    returns [None]. (It is a function, so repeated invocations agree.) *)
Theorem select_edge_priority (node : Node.t) (o : Outcome) (ctx : Context) (g : Graph.t) :
  let edges := Graph.outgoing_edges g (Node.id node) in
  (edges = [] -> select_edge node o ctx g = None) /\
  (edges <> [] -> exists e, select_edge node o ctx g = Some e /\ priority_choice edges o ctx e).
Proof.
  cbv zeta. rewrite select_edge_unfold.
  generalize (Graph.outgoing_edges g (Node.id node)) as edges. intros edges.
  split; [intros ->; reflexivity|]. intros Hne.
  assert (Hsel : exists e,
    match sorted_by_key (guard_matched edges o ctx) with
    | e :: _ => Some e
    | [] =>
      match (if negb (Py.is_empty (preferred_label o)) then
               find (fun e => String.eqb (_normalize_label (Edge.label e))
                                         (_normalize_label (preferred_label o))) edges
             else None) with
      | Some e => Some e
      | None =>
        match first_suggested (suggested_next_ids o) edges with
        | Some e => Some e
        | None =>
          match sorted_by_key (List.filter (fun e => Py.is_empty (Edge.condition e)) edges) with
          | e :: _ => Some e
          | [] => head (sorted_by_key edges)
          end
        end
      end
    end = Some e /\ priority_choice edges o ctx e).
  2:{ destruct edges; [congruence|exact Hsel]. }
  unfold priority_choice. cbv zeta. fold (guard_matched edges o ctx).
  rewrite first_suggested_flat_map.
  destruct (guard_matched edges o ctx) as [|m ms] eqn:Hm.
  - rewrite sorted_by_key_nil.
    destruct (Py.is_empty (preferred_label o)) eqn:Hpl; simpl negb; cbv iota.
    + destruct (flat_map _ (suggested_next_ids o)) as [|s ss]; simpl head; cbv iota.
      * destruct (List.filter (fun e => Py.is_empty (Edge.condition e)) edges) as [|u us] eqn:Hu.
        -- rewrite sorted_by_key_nil.
           destruct (sorted_by_key_head edges Hne) as (h & r & -> & Hb).
           exists h. split; [reflexivity|exact Hb].
        -- destruct (sorted_by_key_head (u :: us) ltac:(discriminate)) as (h & r & -> & Hb).
           exists h. split; [reflexivity|exact Hb].
      * exists s. split; reflexivity.
    + rewrite find_head_filter.
      destruct (List.filter _ edges) as [|l ls]; simpl head; cbv iota.
      * destruct (flat_map _ (suggested_next_ids o)) as [|s ss]; simpl head; cbv iota.
        -- destruct (List.filter (fun e => Py.is_empty (Edge.condition e)) edges) as [|u us] eqn:Hu.
           ++ rewrite sorted_by_key_nil.
              destruct (sorted_by_key_head edges Hne) as (h & r & -> & Hb).
              exists h. split; [reflexivity|exact Hb].
           ++ destruct (sorted_by_key_head (u :: us) ltac:(discriminate)) as (h & r & -> & Hb).
              exists h. split; [reflexivity|exact Hb].
        -- exists s. split; reflexivity.
      * exists l. split; reflexivity.
  - destruct (sorted_by_key_head (m :: ms) ltac:(discriminate)) as (h & r & -> & Hb).
    exists h. split; [reflexivity|exact Hb].
Qed.

(** *** C10 *)

(** C10: when no non-empty guard holds and the preferred label is
    non-empty, selection returns the first edge in declaration order whose
    normalised label equals the normalised preferred label, whatever the
    weights and guards of the edges. *)
Theorem select_edge_label_first_match (node : Node.t) (o : Outcome) (ctx : Context)
    (g : Graph.t) (e : Edge.t) :
  guard_matched (Graph.outgoing_edges g (Node.id node)) o ctx = [] ->
  Py.is_empty (preferred_label o) = false ->
  List.find (fun e' => String.eqb (_normalize_label (Edge.label e'))
                                  (_normalize_label (preferred_label o)))
            (Graph.outgoing_edges g (Node.id node)) = Some e ->
  select_edge node o ctx g = Some e.
Proof.
  intros Hm Hpl Hf. rewrite select_edge_unfold.
  destruct (Graph.outgoing_edges g (Node.id node)) as [|e0 es] eqn:He;
    [discriminate Hf|].
  cbv iota beta zeta. rewrite Hm, sorted_by_key_nil, Hpl. simpl negb. cbv iota. rewrite Hf. reflexivity.
Qed.

(** Node [n] with two edges labelled [Yes]/[yes]: the first has a false
    guard and weight 0, the second no guard and weight 5. *)
Lemma select_edge_label_first_match_witness :
  (evaluate_condition (Edge.condition label_e1) label_outcome ∅ = false /\
   (Edge.weight label_e1 < Edge.weight label_e2)%Z) /\
  select_edge label_node label_outcome ∅ label_graph = Some label_e1.
Proof.
  split; [split; [vm_compute; reflexivity|vm_compute; reflexivity]|].
  apply (select_edge_label_first_match label_node label_outcome ∅ label_graph label_e1);
    vm_compute; reflexivity.
Defined.

(** *** C7 *)

Lemma substring_0_length (s : string) : substring 0 (String.length s) s = s.
Proof. induction s as [|c r IH]; simpl; [reflexivity|rewrite IH; reflexivity]. Qed.

Lemma ascii_neq_eqb (a b : ascii) : a <> b -> Ascii.eqb a b = false.
Proof. intros H. apply Ascii.eqb_neq. exact H. Qed.

(** C7 (counterexample): the code strips a two-letter bracket prefix
    [[ok] ], which is not of the form [[X] ] of one character. *)
Lemma normalize_label_two_char_bracket :
  _normalize_label "[ok] Yes" = "yes" /\ spec_normalize "[ok] Yes" = "[ok] yes" /\
  _normalize_label "[ok] Yes" <> spec_normalize "[ok] Yes".
Proof. vm_compute. split; [reflexivity|split; [reflexivity|discriminate]]. Qed.

Lemma prefix1_neq (a x : ascii) (s : string) :
  a <> x -> String.prefix (String a EmptyString) (String x s) = false.
Proof. intros H. simpl. destruct (ascii_dec a x); [congruence|reflexivity]. Qed.

Lemma prefix1_eq (a : ascii) (s : string) :
  String.prefix (String a EmptyString) (String a s) = true.
Proof. simpl. destruct (ascii_dec a a); [destruct s; reflexivity|congruence]. Qed.

Lemma split_once_skip (c : ascii) (s sep : string) :
  String.prefix sep (String c s) = false ->
  Py.split_once (String c s) sep =
  match Py.split_once s sep with Some (a, b) => Some (String c a, b) | None => None end.
Proof. intros H. cbn [Py.split_once]. rewrite H. reflexivity. Qed.

Lemma split_once_hit (s sep : string) :
  String.prefix sep s = true -> Py.split_once s sep = Some ("", Py.drop (String.length sep) s).
Proof. intros H. destruct s; cbn [Py.split_once]; rewrite H; reflexivity. Qed.

Lemma drop_cons (n : nat) (c : ascii) (s : string) : Py.drop (S n) (String c s) = Py.drop n s.
Proof. reflexivity. Qed.

Lemma drop_0 (s : string) : Py.drop 0 s = s.
Proof. unfold Py.drop. rewrite Nat.sub_0_r. apply substring_0_length. Qed.

Lemma substring_0_0 (s : string) : substring 0 0 s = "".
Proof. destruct s; reflexivity. Qed.

Lemma contains_cons (sub : string) (c : ascii) (s : string) :
  Py.contains sub (String c s) = String.prefix sub (String c s) || Py.contains sub s.
Proof. reflexivity. Qed.

Lemma contains_hit (sub s : string) : String.prefix sub s = true -> Py.contains sub s = true.
Proof. intros H. destruct s; cbn [Py.contains]; rewrite H; reflexivity. Qed.

Ltac eqb_cases :=
  repeat match goal with
         | |- context [String.eqb ?a ?b] =>
             lazymatch a with String _ _ => fail | _ => destruct (String.eqb a b) end
         end.

Lemma bracket_step_eq (s : list string) : strip_bracket_prefix s = spec_bracket_step s.
Proof.
  unfold strip_bracket_prefix, spec_bracket_step.
  destruct s as [|o r]; [reflexivity|].
  destruct (String.eqb o "[") eqn:Ho; [|reflexivity].
  apply String.eqb_eq in Ho. subst o.
  destruct r as [|c1 [|c2 [|c3 r]]]; simpl; eqb_cases; reflexivity.
Qed.

Lemma paren_step_eq (s : list string) : strip_paren_prefix s = spec_paren_step s.
Proof.
  unfold strip_paren_prefix, spec_paren_step.
  destruct s as [|x [|c r]]; [reflexivity|reflexivity|]. simpl.
  destruct (String.eqb_spec c ")") as [->|Hc].
  - rewrite bool_decide_eq_true_2 by reflexivity. reflexivity.
  - rewrite bool_decide_eq_false_2 by congruence. reflexivity.
Qed.

Lemma dash_step_eq (s : list string) : strip_dash_prefix s = spec_dash_step s.
Proof.
  unfold strip_dash_prefix, spec_dash_step.
  destruct s as [|x [|c1 [|c2 r]]]; [reflexivity|reflexivity|reflexivity|]. simpl.
  destruct (String.eqb_spec c1 " ") as [->|H1]; destruct (String.eqb_spec c2 "-") as [->|H2].
  - rewrite bool_decide_eq_true_2 by reflexivity. reflexivity.
  - rewrite bool_decide_eq_false_2 by congruence. reflexivity.
  - rewrite bool_decide_eq_false_2 by congruence. reflexivity.
  - rewrite bool_decide_eq_false_2 by congruence. reflexivity.
Qed.

Lemma lstrip_l_idem (l : list string) : Py.lstrip_l (Py.lstrip_l l) = Py.lstrip_l l.
Proof.
  induction l as [|c r IH]; simpl; [reflexivity|].
  destruct (Py.is_space_ch c) eqn:E; [exact IH|simpl; rewrite E; reflexivity].
Qed.

Lemma lstrip_l_head (l : list string) :
  Py.lstrip_l l = [] \/ exists c r, Py.lstrip_l l = c :: r /\ Py.is_space_ch c = false.
Proof.
  induction l as [|c r IH]; simpl; [left; reflexivity|].
  destruct (Py.is_space_ch c) eqn:E; [exact IH|right; eauto].
Qed.

Lemma lstrip_l_snoc (l : list string) (c : string) :
  Py.is_space_ch c = false -> Py.lstrip_l (l ++ [c])%list = (Py.lstrip_l l ++ [c])%list.
Proof.
  intros Hc. induction l as [|a r IH]; simpl; [rewrite Hc; reflexivity|].
  destruct (Py.is_space_ch a); [exact IH|reflexivity].
Qed.

Lemma rstrip_l_cons (c : string) (r : list string) :
  Py.is_space_ch c = false -> Py.rstrip_l (c :: r) = c :: Py.rstrip_l r.
Proof.
  intros Hc. unfold Py.rstrip_l. simpl. rewrite (lstrip_l_snoc _ _ Hc), rev_app_distr. reflexivity.
Qed.

Lemma strip_l_idem (l : list string) : Py.strip_l (Py.strip_l l) = Py.strip_l l.
Proof.
  unfold Py.strip_l.
  assert (E : Py.lstrip_l (Py.rstrip_l (Py.lstrip_l l)) = Py.rstrip_l (Py.lstrip_l l)).
  { destruct (lstrip_l_head l) as [->|(c & r & -> & Hc)]; [reflexivity|].
    rewrite (rstrip_l_cons _ _ Hc). simpl. rewrite Hc. reflexivity. }
  rewrite E. unfold Py.rstrip_l. rewrite rev_involutive, lstrip_l_idem. reflexivity.
Qed.

Lemma is_space_lower_char (a : ascii) : Py.is_space (Py.lower_char a) = Py.is_space a.
Proof.
  unfold Py.lower_char.
  destruct (Nat.leb 65 (nat_of_ascii a) && Nat.leb (nat_of_ascii a) 90) eqn:E; [|reflexivity].
  apply andb_prop in E as [E1 E2]. apply Nat.leb_le in E1, E2.
  unfold Py.is_space.
  rewrite nat_ascii_embedding by lia.
  repeat match goal with |- context [Nat.leb ?x ?y] => destruct (Nat.leb_spec x y) end;
    simpl; try reflexivity; exfalso; lia.
Qed.

Lemma is_space_ch_lower (c : string) : Py.is_space_ch (Py.lower c) = Py.is_space_ch c.
Proof. destruct c as [|a [|b r]]; simpl; [reflexivity|apply is_space_lower_char|reflexivity]. Qed.

Lemma lstrip_l_map_lower (l : list string) :
  Py.lstrip_l (map Py.lower l) = map Py.lower (Py.lstrip_l l).
Proof.
  induction l as [|c r IH]; simpl; [reflexivity|].
  rewrite is_space_ch_lower. destruct (Py.is_space_ch c); [exact IH|reflexivity].
Qed.

Lemma strip_l_map_lower (l : list string) :
  Py.strip_l (map Py.lower l) = map Py.lower (Py.strip_l l).
Proof.
  unfold Py.strip_l, Py.rstrip_l.
  rewrite lstrip_l_map_lower, <- map_rev, lstrip_l_map_lower, map_rev. reflexivity.
Qed.

Lemma spec_steps_stripped (s : list string) :
  Py.strip_l s = s ->
  Py.strip_l (spec_bracket_step s) = spec_bracket_step s /\
  Py.strip_l (spec_paren_step s) = spec_paren_step s /\
  Py.strip_l (spec_dash_step s) = spec_dash_step s.
Proof.
  intros H. unfold spec_bracket_step, spec_paren_step, spec_dash_step.
  split; [|split].
  - destruct s as [|o [|c1 [|c2 [|c3 r]]]]; [exact H|..];
      repeat match goal with |- context [if ?b then _ else _] => destruct b end;
      solve [exact H | apply strip_l_idem].
  - destruct s as [|x [|c r]]; [exact H|exact H|].
    destruct (String.eqb c ")"); [apply strip_l_idem|exact H].
  - destruct s as [|x [|c1 [|c2 r]]]; [exact H|exact H|exact H|].
    destruct (String.eqb c1 " " && String.eqb c2 "-"); [apply strip_l_idem|exact H].
Qed.

(** C7 (amended): on the characters of a label, normalisation trims and
    lowercases, then applies three steps in order, each removal followed
    by a trim and each step leaving the text alone when its condition
    fails: a leading [[] with a [\]] among the first four characters is
    dropped through the first [\]] (so [[\]], [[X\]] and [[XY\]]
    prefixes go); a second character [)] drops the first two characters;
    a second and third character [ -] drop the first three.  [[Y] Yes],
    [Y) Yes] and [Y - Yes] all give [yes], and so does [[是] Yes], whose
    bracketed character takes three bytes. *)
Theorem normalize_label_steps :
  (forall label, _normalize_label label = amended_normalize label) /\
  _normalize_label "[Y] Yes" = "yes" /\ _normalize_label "Y) Yes" = "yes" /\
  _normalize_label "Y - Yes" = "yes" /\ _normalize_label "[是] Yes" = "yes".
Proof.
  split; [|vm_compute; repeat split].
  intros label. unfold _normalize_label, amended_normalize.
  rewrite bracket_step_eq, paren_step_eq, dash_step_eq. f_equal.
  assert (H0 : Py.strip_l (map Py.lower (Py.strip_l (Py.chars label))) =
               map Py.lower (Py.strip_l (Py.chars label)))
    by (rewrite strip_l_map_lower, strip_l_idem; reflexivity).
  set (s0 := map Py.lower (Py.strip_l (Py.chars label))) in *.
  pose proof (proj1 (spec_steps_stripped s0 H0)) as H1.
  pose proof (proj1 (proj2 (spec_steps_stripped _ H1))) as H2.
  exact (proj2 (proj2 (spec_steps_stripped _ H2))).
Qed.

(** ** Condition evaluation *)

Lemma lstrip_all_space (c : string) :
  forallb Py.is_space (list_ascii_of_string c) = true -> Py.lstrip c = "".
Proof.
  induction c as [|a r IH]; simpl; [reflexivity|].
  intros H. apply andb_prop in H as [Ha Hr]. rewrite Ha. exact (IH Hr).
Qed.

Lemma strip_all_space (c : string) :
  forallb Py.is_space (list_ascii_of_string c) = true -> Py.strip c = "".
Proof. intros H. unfold Py.strip. rewrite (lstrip_all_space c H). reflexivity. Qed.

Lemma resolve_key_unresolved (key : string) (o : Outcome) (ctx : Context) :
  key_unresolved key ctx -> resolve_key key o ctx = "".
Proof.
  unfold key_unresolved, resolve_key. cbv zeta. intros (H1 & H2 & H3 & H4).
  destruct (String.eqb_spec (Py.strip key) "outcome") as [E|_]; [contradiction|].
  destruct (String.eqb_spec (Py.strip key) "preferred_label") as [E|_]; [contradiction|].
  destruct (String.prefix "context." (Py.strip key)) eqn:Hp.
  - rewrite (H4 eq_refl), H3. reflexivity.
  - rewrite H3. reflexivity.
Qed.

(** C4 (code defect): for the key [context.foo] the code looks up
    [key[9:]], which is [oo] (the prefix [context.] has eight characters):
    a Context holding [foo] gives the empty string, and a Context holding
    [oo] gives that value. *)
Theorem resolve_key_context_offset (o : Outcome) :
  resolve_key "context.foo" o {["foo" := PyStr "x"]} = "" /\
  resolve_key "context.foo" o {["oo" := PyStr "y"]} = "y" /\
  resolve_key "context.foo" o {["context.foo" := PyStr "z"]} = "z".
Proof. vm_compute. repeat split. Qed.

(** C6: [evaluate_condition] is a total function to [bool]. A condition
    made only of whitespace (the empty one included) gives [true]; a key
    that neither names [outcome] or [preferred_label] nor is found in the
    Context by the code's lookups resolves to the empty string; a bare
    clause on such a key is false, and an equality clause on such a key
    holds exactly when its value is the empty string. *)
Theorem evaluate_condition_total :
  (forall c o ctx, forallb Py.is_space (list_ascii_of_string c) = true ->
     evaluate_condition c o ctx = true) /\
  (forall key o ctx, key_unresolved key ctx -> resolve_key key o ctx = "") /\
  (forall clause o ctx,
     Py.split_once (Py.strip clause) "!=" = None ->
     Py.split_once (Py.strip clause) "=" = None ->
     key_unresolved (Py.strip clause) ctx ->
     evaluate_clause clause o ctx = false) /\
  (forall clause o ctx kp vp,
     Py.split_once (Py.strip clause) "!=" = None ->
     Py.split_once (Py.strip clause) "=" = Some (kp, vp) ->
     key_unresolved (Py.strip kp) ctx ->
     evaluate_clause clause o ctx = String.eqb "" (Py.strip_char dquote (Py.strip vp))).
Proof.
  split; [|split; [|split]].
  - intros c o ctx H. unfold evaluate_condition. rewrite (strip_all_space c H).
    rewrite orb_true_r. reflexivity.
  - exact resolve_key_unresolved.
  - intros clause o ctx H1 H2 H3. unfold evaluate_clause. cbv zeta.
    rewrite H1, H2, (resolve_key_unresolved _ o ctx H3). reflexivity.
  - intros clause o ctx kp vp H1 H2 H3. unfold evaluate_clause. cbv zeta.
    rewrite H1, H2, (resolve_key_unresolved _ o ctx H3). reflexivity.
Qed.

(** ** The traversal loop *)

Lemma goal_gate_violation_some (g : Graph.t) (nos : list (string * Outcome))
    (nid : string) (oc : Outcome) :
  goal_gate_violation g nos = Some (nid, oc) ->
  In (nid, oc) nos /\ exists n, Graph.get_node g nid = Some n /\ goal_gate n = true /\
                                status_ok (status oc) = false.
Proof.
  induction nos as [|[k o] r IH]; simpl; [discriminate|].
  destruct (Graph.get_node g k) as [n|] eqn:E.
  - destruct (goal_gate n && negb (status_ok (status o))) eqn:B.
    + intros [= <- <-]. apply andb_prop in B as [B1 B2]. apply negb_true_iff in B2.
      split; [left; reflexivity|]. exists n. auto.
    + intros H. destruct (IH H) as [Hin Hex]. split; [right; exact Hin|exact Hex].
  - intros H. destruct (IH H) as [Hin Hex]. split; [right; exact Hin|exact Hex].
Qed.

Lemma goal_gate_violation_none (g : Graph.t) (nos : list (string * Outcome)) :
  goal_gate_violation g nos = None ->
  forall nid oc n, In (nid, oc) nos -> Graph.get_node g nid = Some n ->
                   goal_gate n = true -> status_ok (status oc) = true.
Proof.
  induction nos as [|[k o] r IH]; simpl; [intros _ ? ? ? []|].
  destruct (Graph.get_node g k) as [m|] eqn:E.
  - destruct (goal_gate m && negb (status_ok (status o))) eqn:B; [discriminate|].
    intros H nid oc n [[= -> ->]|Hin] Hg Hgate.
    + rewrite E in Hg. injection Hg as ->. rewrite Hgate in B. simpl in B.
      apply negb_false_iff in B. exact B.
    + exact (IH H nid oc n Hin Hg Hgate).
  - intros H nid oc n [[= -> ->]|Hin] Hg Hgate.
    + rewrite E in Hg. discriminate.
    + exact (IH H nid oc n Hin Hg Hgate).
Qed.

(** C2: when the current node is terminal, the loop ends at this
    iteration. If some recorded node is goal-gated and its Outcome is
    neither SUCCESS nor PARTIAL_SUCCESS, the run returns a FAIL Outcome
    whose failure_reason is [Goal gate unsatisfied at node '<id>': ...] for
    such a node (the first in recording order), after a [PipelineFailed]
    event and with no [PipelineCompleted]; when every goal-gated node
    succeeded, the run completes normally through [finish]. *)
Theorem engine_terminal_goal_gate (execute : Node.t -> Context -> Outcome * Context)
    (g : Graph.t) (st : EState) (node : Node.t) (f : nat)
    (Hn : Graph.get_node g (current_id st) = Some node)
    (Ht : Graph.is_terminal g (current_id st) = true) :
  ((exists nid oc n, In (nid, oc) (node_outcomes st) /\ Graph.get_node g nid = Some n /\
                     goal_gate n = true /\ status_ok (status oc) = false) ->
   exists nid oc n, In (nid, oc) (node_outcomes st) /\ Graph.get_node g nid = Some n /\
     goal_gate n = true /\ status_ok (status oc) = false /\
     run_loop execute (S f) g st =
       Some (Returned (mkOutcome FAIL "" [] ∅ "" (goal_gate_reason nid oc)) (ectx st)
               (events st ++ [mkEvent "PipelineFailed"
                                [("node_id", EVal (PyStr nid));
                                 ("reason", EVal (PyStr (goal_gate_reason nid oc)))]])%list)) /\
  ((forall nid oc n, In (nid, oc) (node_outcomes st) -> Graph.get_node g nid = Some n ->
                     goal_gate n = true -> status_ok (status oc) = true) ->
   run_loop execute (S f) g st = Some (finish st)).
Proof.
  assert (Hstep : run_loop execute (S f) g st =
                  match goal_gate_violation g (node_outcomes st) with
                  | Some (nid, oc) =>
                      Some (Returned (mkOutcome FAIL "" [] ∅ "" (goal_gate_reason nid oc)) (ectx st)
                        (events st ++ [mkEvent "PipelineFailed"
                                         [("node_id", EVal (PyStr nid));
                                          ("reason", EVal (PyStr (goal_gate_reason nid oc)))]])%list)
                  | None => Some (finish st)
                  end).
  { cbn [run_loop]. unfold engine_step. rewrite Hn, Ht.
    destruct (goal_gate_violation g (node_outcomes st)) as [[nid oc]|]; reflexivity. }
  rewrite Hstep. split.
  - intros (nid & oc & n & Hin & Hg & Hgate & Hst).
    destruct (goal_gate_violation g (node_outcomes st)) as [[nid' oc']|] eqn:V.
    + destruct (goal_gate_violation_some g _ nid' oc' V) as (Hin' & n' & Hg' & Hgate' & Hst').
      exists nid', oc', n'. auto.
    + pose proof (goal_gate_violation_none g _ V nid oc n Hin Hg Hgate). congruence.
  - intros Hall.
    destruct (goal_gate_violation g (node_outcomes st)) as [[nid oc]|] eqn:V; [|reflexivity].
    destruct (goal_gate_violation_some g _ nid oc V) as (Hin & n & Hg & Hgate & Hst).
    pose proof (Hall nid oc n Hin Hg Hgate). congruence.
Qed.

(** C5: after a stage at a non-terminal node returns FAIL, the next node
    is chosen among the outgoing edges whose non-empty guard holds (in the
    Context after the Outcome is merged), as the edge of least
    [(-weight, to_node)]; when no guard holds, the loop raises
    [Stage '<id>' failed: <reason>]. The preferred label and the suggested
    ids take no part in the choice. *)
Theorem engine_fail_routing (execute : Node.t -> Context -> Outcome * Context)
    (g : Graph.t) (st : EState) (node : Node.t) (oc : Outcome) (ctx1 : Context)
    (Hn : Graph.get_node g (current_id st) = Some node)
    (Ht : Graph.is_terminal g (current_id st) = false)
    (He : execute node (ectx st) = (oc, ctx1))
    (Hf : status oc = FAIL) :
  let ctx := merge_outcome ctx1 oc in
  let fail_edges := guard_matched (Graph.outgoing_edges g (Node.id node)) oc ctx in
  (fail_edges <> [] ->
   exists e st', is_best fail_edges e /\ engine_step execute g st = Continue st' /\
                 current_id st' = Edge.to_node e /\ ectx st' = ctx /\
                 last_outcome st' = Some oc) /\
  (fail_edges = [] ->
   exists evs, engine_step execute g st =
               Raised ("Stage '" ++ Node.id node ++ "' failed: " ++ failure_reason oc) ctx evs).
Proof.
  cbv zeta. unfold engine_step. rewrite Hn, Ht, He. cbv beta iota zeta. rewrite Hf.
  split.
  - intros Hne. destruct (sorted_by_key_head _ Hne) as (h & r & Hs & Hb). rewrite Hs.
    eexists h, _. split; [exact Hb|]. split; [reflexivity|]. auto.
  - intros He0. rewrite He0. eexists. reflexivity.
Qed.

(** ** The tool handler *)

(** C8: for a tool node with no registered executor ([subprocess_run]
    stands for the call with [timeout=300]): with no [tool_command], or an
    empty one, the handler fails with the missing-config reason and the
    result does not depend on [subprocess_run]; a command that exits 0
    gives SUCCESS with [tool.output] set to stdout followed by stderr; a
    non-zero exit gives FAIL whose reason is that output, or
    [exit code N] when it is empty; a timeout gives FAIL with
    [Tool timed out]. *)
Theorem tool_execute_outcomes
    (executors : list (string * (Node.t -> Context -> ExecResult * Context)))
    (subprocess_run : pyval -> pyval -> ProcResult) (n : Node.t) (ctx : Context)
    (Hr : registered_executor executors n = None) :
  ((Node.attrs n !! "tool_command" = None \/ Node.attrs n !! "tool_command" = Some (PyStr "")) ->
   forall run', tool_execute executors run' n ctx =
     (Some (mkOutcome FAIL "" [] ∅ "" "No tool_command or registered tool specified"), ctx)) /\
  (forall so se, subprocess_run (tool_command n) (tool_cwd ctx) = Completed 0 so se ->
   py_truthy (tool_command n) = true ->
   exists o, tool_execute executors subprocess_run n ctx = (Some o, ctx) /\
             status o = SUCCESS /\
             context_updates o = {[ "tool.output" := PyStr (so ++ se) ]}) /\
  (forall rc so se, rc <> 0%Z ->
   subprocess_run (tool_command n) (tool_cwd ctx) = Completed rc so se ->
   py_truthy (tool_command n) = true ->
   exists o, tool_execute executors subprocess_run n ctx = (Some o, ctx) /\
             status o = FAIL /\
             failure_reason o = (if Py.is_empty (so ++ se) then "exit code " ++ Py.Z_to_str rc
                                 else so ++ se)) /\
  (subprocess_run (tool_command n) (tool_cwd ctx) = TimeoutExpired ->
   py_truthy (tool_command n) = true ->
   tool_execute executors subprocess_run n ctx =
     (Some (mkOutcome FAIL "" [] ∅ "" "Tool timed out"), ctx)).
Proof.
  unfold tool_execute. rewrite Hr. cbv zeta. split; [|split; [|split]].
  - intros Hc run'. unfold tool_command.
    destruct Hc as [Hc|Hc]; rewrite Hc; reflexivity.
  - intros so se Hrun Htr. rewrite Htr, Hrun. eexists. split; [reflexivity|]. split; reflexivity.
  - intros rc so se Hrc Hrun Htr. rewrite Htr, Hrun.
    eexists. split; [reflexivity|]. simpl status; simpl failure_reason.
    apply Z.eqb_neq in Hrc. rewrite Hrc. split; reflexivity.
  - intros Hrun Htr. rewrite Htr, Hrun. reflexivity.
Qed.

(** ** Witnesses *)

Lemma engine_terminal_goal_gate_witness :
  Graph.get_node gg_graph (current_id gg_state) = Some gg_end /\
  Graph.is_terminal gg_graph (current_id gg_state) = true /\
  exists nid oc n, In (nid, oc) (node_outcomes gg_state) /\ Graph.get_node gg_graph nid = Some n /\
     goal_gate n = true /\ status_ok (status oc) = false /\
     run_loop gg_exec 1 gg_graph gg_state =
       Some (Returned (mkOutcome FAIL "" [] ∅ "" (goal_gate_reason nid oc)) (ectx gg_state)
               (events gg_state ++ [mkEvent "PipelineFailed"
                                [("node_id", EVal (PyStr nid));
                                 ("reason", EVal (PyStr (goal_gate_reason nid oc)))]])%list).
Proof.
  assert (Hn : Graph.get_node gg_graph (current_id gg_state) = Some gg_end) by reflexivity.
  assert (Ht : Graph.is_terminal gg_graph (current_id gg_state) = true) by reflexivity.
  split; [exact Hn|]. split; [exact Ht|].
  destruct (engine_terminal_goal_gate gg_exec gg_graph gg_state gg_end 0 Hn Ht) as [H _].
  apply H. exists "gate", gg_outcome, gg_gate.
  split; [left; reflexivity|]. split; [reflexivity|]. split; [vm_compute; reflexivity|].
  reflexivity.
Defined.

Lemma engine_fail_routing_witness :
  Graph.get_node fr_graph (current_id fr_state) = Some fr_node /\
  Graph.is_terminal fr_graph (current_id fr_state) = false /\
  fr_exec fr_node (ectx fr_state) = (fr_outcome, ∅) /\ status fr_outcome = FAIL /\
  select_edge fr_node fr_outcome (merge_outcome ∅ fr_outcome) fr_graph = Some fr_edge /\
  exists evs, engine_step fr_exec fr_graph fr_state =
              Raised "Stage 'n' failed: boom" (merge_outcome ∅ fr_outcome) evs.
Proof.
  assert (Hn : Graph.get_node fr_graph (current_id fr_state) = Some fr_node) by reflexivity.
  assert (Ht : Graph.is_terminal fr_graph (current_id fr_state) = false) by reflexivity.
  assert (He : fr_exec fr_node (ectx fr_state) = (fr_outcome, ∅)) by reflexivity.
  assert (Hf : status fr_outcome = FAIL) by reflexivity.
  split; [exact Hn|]. split; [exact Ht|]. split; [exact He|]. split; [exact Hf|].
  split; [vm_compute; reflexivity|].
  destruct (engine_fail_routing fr_exec fr_graph fr_state fr_node fr_outcome ∅ Hn Ht He Hf)
    as [_ Hr].
  apply Hr. vm_compute. reflexivity.
Defined.

Lemma tool_execute_outcomes_witness :
  registered_executor [] tool_node = None /\
  exists o, tool_execute [] tool_proc tool_node ∅ = (Some o, ∅) /\
            status o = FAIL /\ failure_reason o = "exit code 2".
Proof.
  assert (Hr : registered_executor [] tool_node = None) by (vm_compute; reflexivity).
  split; [exact Hr|].
  destruct (tool_execute_outcomes [] tool_proc tool_node ∅ Hr) as (_ & _ & Hc & _).
  destruct (Hc 2%Z "" "") as (o & H1 & H2 & H3);
    [discriminate|reflexivity|vm_compute; reflexivity|].
  exists o. split; [exact H1|]. split; [exact H2|]. rewrite H3. vm_compute. reflexivity.
Defined.

(** ** The DOT parser *)

(** C3 (code defect): in [a -> b -> c [label="x", weight=3]] the first
    edge pattern stops before [-> c], so the attribute block is read only
    by the chain loop, which ignores it: both edges get the edge defaults
    (empty label, weight 0). The same block after a single edge is read. *)
Theorem parse_dot_chain_attrs_dropped :
  parsed_edges chain_src = Some [("a", "b", "", 0%Z); ("b", "c", "", 0%Z)] /\
  parsed_edges single_src = Some [("a", "b", "x", 3%Z)].
Proof. split; vm_compute; reflexivity. Qed.

(** ** The task runner *)

(** C9 (code defect): [on_event] stores a copy [list(events)] in the task
    store, so events appended later to the local list are not seen there.
    When stage [a] fails the task is [failed] but its stored events end
    with the last [StageCompleted], the [error] event going to the local
    list only; on a normal run the task is [completed] and the final
    [progress] event is missing from the stored events likewise. *)
Theorem run_task_final_event_not_stored :
  option_map (fun w => task_view w "t") (run_task rt_exec rt_fail_graph 10 "t" ∅ empty_world) =
    Some (Some ["StageStarted"; "StageCompleted"; "StageStarted"; "StageCompleted"],
          Some "failed") /\
  option_map (fun w => local_kinds w 0) (run_task rt_exec rt_fail_graph 10 "t" ∅ empty_world) =
    Some ["StageStarted"; "StageCompleted"; "StageStarted"; "StageCompleted"; "error"] /\
  option_map (fun w => task_view w "t") (run_task rt_exec rt_ok_graph 10 "t" ∅ empty_world) =
    Some (Some ["StageStarted"; "StageCompleted"; "PipelineCompleted"], Some "completed") /\
  option_map (fun w => local_kinds w 0) (run_task rt_exec rt_ok_graph 10 "t" ∅ empty_world) =
    Some ["StageStarted"; "StageCompleted"; "PipelineCompleted"; "progress"].
Proof. repeat split; vm_compute; reflexivity. Qed.

(* ================================================================== *)
(** * Further properties of the code *)

Lemma app_cons (a : ascii) (s1 s2 : string) : String a s1 ++ s2 = String a (s1 ++ s2).
Proof. reflexivity. Qed.

Lemma app_nil_l (s : string) : "" ++ s = s.
Proof. reflexivity. Qed.

Lemma app_assoc_str (s1 s2 s3 : string) : (s1 ++ s2) ++ s3 = s1 ++ (s2 ++ s3).
Proof. induction s1 as [|a r IH]; [reflexivity|]. rewrite !app_cons, IH. reflexivity. Qed.

Lemma app_nil_r (s : string) : s ++ "" = s.
Proof. induction s as [|a r IH]; [reflexivity|]. rewrite app_cons, IH. reflexivity. Qed.

Lemma prefix_cons_eq (a : ascii) (s1 s2 : string) :
  String.prefix (String a s1) (String a s2) = String.prefix s1 s2.
Proof. simpl. destruct (ascii_dec a a); [reflexivity|congruence]. Qed.

Lemma prefix_cons_neq (a b : ascii) (s1 s2 : string) :
  a <> b -> String.prefix (String a s1) (String b s2) = false.
Proof. intros H. simpl. destruct (ascii_dec a b); [congruence|reflexivity]. Qed.

Lemma prefix_app (s1 s2 : string) : String.prefix s1 (s1 ++ s2) = true.
Proof. induction s1 as [|a r IH]; [destruct s2; reflexivity|]. change (String a r ++ s2) with (String a (r ++ s2)).
  rewrite prefix_cons_eq. exact IH. Qed.

Lemma drop_app (s1 s2 : string) : Py.drop (String.length s1) (s1 ++ s2) = s2.
Proof.
  induction s1 as [|a r IH]; [apply drop_0|].
  change (String a r ++ s2) with (String a (r ++ s2)).
  change (String.length (String a r)) with (S (String.length r)).
  rewrite drop_cons. exact IH.
Qed.

Lemma prefix_split (s1 s2 : string) :
  String.prefix s1 s2 = true -> s2 = s1 ++ Py.drop (String.length s1) s2.
Proof.
  revert s2. induction s1 as [|a r IH]; intros s2 H; [simpl; symmetry; apply drop_0|].
  destruct s2 as [|b s2]; [discriminate|].
  destruct (ascii_dec a b) as [<-|Hab]; [|rewrite prefix_cons_neq in H by exact Hab; discriminate].
  rewrite prefix_cons_eq in H.
  change (String.length (String a r)) with (S (String.length r)). rewrite drop_cons.
  change (String a r ++ Py.drop (String.length r) s2) with (String a (r ++ Py.drop (String.length r) s2)).
  f_equal. exact (IH s2 H).
Qed.

(** [split_once] cuts at an occurrence of the separator. *)
Lemma split_once_app (s sep a b : string) :
  Py.split_once s sep = Some (a, b) -> s = a ++ sep ++ b.
Proof.
  revert a b. induction s as [|c r IH]; intros a b H.
  - destruct sep; cbn [Py.split_once] in H; simpl in H.
    + injection H as <- <-. reflexivity.
    + discriminate.
  - cbn [Py.split_once] in H. destruct (String.prefix sep (String c r)) eqn:Hp.
    + injection H as <- <-. simpl. exact (prefix_split _ _ Hp).
    + destruct (Py.split_once r sep) as [[a' b']|] eqn:E; [|discriminate].
      injection H as <- <-. rewrite (IH a' b' eq_refl). reflexivity.
Qed.

Lemma split_once_contains (s sep : string) (p : string * string) :
  Py.split_once s sep = Some p -> Py.contains sep s = true.
Proof.
  revert p. induction s as [|c r IH]; intros p H.
  - destruct sep; cbn [Py.split_once] in H; simpl in H; [reflexivity|discriminate].
  - cbn [Py.split_once] in H. rewrite contains_cons.
    destruct (String.prefix sep (String c r)); [reflexivity|].
    destruct (Py.split_once r sep) as [[a' b']|] eqn:E; [|discriminate]. simpl. exact (IH _ eq_refl).
Qed.

Lemma split_once_none (s sep : string) :
  Py.contains sep s = false -> Py.split_once s sep = None.
Proof.
  intros H. destruct (Py.split_once s sep) as [p|] eqn:E; [|reflexivity].
  rewrite (split_once_contains s sep p E) in H. discriminate.
Qed.

Lemma length_app (s1 s2 : string) : String.length (s1 ++ s2) = (String.length s1 + String.length s2)%nat.
Proof. induction s1 as [|a r IH]; [reflexivity|]. rewrite app_cons. simpl. rewrite IH. reflexivity. Qed.

Lemma split_fuel_enough (sep : string) (n m : nat) (s : string) :
  sep <> "" -> (S (String.length s) <= n)%nat -> (S (String.length s) <= m)%nat ->
  Py.split_fuel n s sep = Py.split_fuel m s sep.
Proof.
  intros Hsep. revert m s. induction n as [|n IH]; intros m s Hn Hm; [lia|].
  destruct m as [|m]; [lia|]. simpl.
  destruct (Py.split_once s sep) as [[a b]|] eqn:E; [|reflexivity].
  apply split_once_app in E. f_equal.
  assert (String.length sep <> 0%nat) by (destruct sep; simpl; congruence).
  rewrite E, !length_app in Hn, Hm. apply IH; lia.
Qed.

Lemma split_no_sep (s sep : string) : Py.split_once s sep = None -> Py.split s sep = [s].
Proof. intros H. unfold Py.split. simpl. rewrite H. reflexivity. Qed.

Lemma split_at_first (s sep a b : string) :
  sep <> "" -> Py.split_once s sep = Some (a, b) -> Py.split s sep = a :: Py.split b sep.
Proof.
  intros Hsep H. unfold Py.split at 1. simpl. rewrite H. f_equal.
  apply split_once_app in H. subst s. unfold Py.split. apply split_fuel_enough; [exact Hsep| |lia].
  rewrite !length_app. assert (String.length sep <> 0%nat) by (destruct sep; simpl; congruence). lia.
Qed.

Lemma list_ascii_app (s1 s2 : string) :
  list_ascii_of_string (s1 ++ s2) = (list_ascii_of_string s1 ++ list_ascii_of_string s2)%list.
Proof. induction s1 as [|a r IH]; [reflexivity|]. rewrite app_cons. simpl. rewrite IH. reflexivity. Qed.

Lemma string_of_list_app (l1 l2 : list ascii) :
  string_of_list_ascii (l1 ++ l2) = string_of_list_ascii l1 ++ string_of_list_ascii l2.
Proof. induction l1 as [|a r IH]; [reflexivity|]. simpl. rewrite IH. reflexivity. Qed.

Lemma rev_str_app (s1 s2 : string) : Py.rev_str (s1 ++ s2) = Py.rev_str s2 ++ Py.rev_str s1.
Proof. unfold Py.rev_str. rewrite list_ascii_app, rev_app_distr, string_of_list_app. reflexivity. Qed.

Lemma rev_str_cons (c : ascii) (s : string) : Py.rev_str (String c s) = Py.rev_str s ++ String c "".
Proof. unfold Py.rev_str. simpl. rewrite string_of_list_app. reflexivity. Qed.

Lemma rev_str_involutive (s : string) : Py.rev_str (Py.rev_str s) = s.
Proof.
  unfold Py.rev_str. rewrite list_ascii_of_string_of_list_ascii, rev_involutive.
  apply string_of_list_ascii_of_string.
Qed.

Lemma rev_str_nil (s : string) : Py.rev_str s = "" -> s = "".
Proof.
  intros H. rewrite <- (rev_str_involutive s), H. reflexivity.
Qed.

Lemma has_char_app (c : ascii) (s1 s2 : string) :
  has_char c (s1 ++ s2) = has_char c s1 || has_char c s2.
Proof. unfold has_char. rewrite list_ascii_app, existsb_app. reflexivity. Qed.

Lemma has_char_rev (c : ascii) (s : string) : has_char c (Py.rev_str s) = has_char c s.
Proof.
  unfold has_char, Py.rev_str. rewrite list_ascii_of_string_of_list_ascii.
  induction (list_ascii_of_string s) as [|a l IH]; [reflexivity|].
  simpl. rewrite existsb_app, IH. simpl. rewrite orb_false_r, orb_comm. reflexivity.
Qed.

Lemma has_char_lstrip (c : ascii) (s : string) :
  has_char c s = false -> has_char c (Py.lstrip s) = false.
Proof.
  induction s as [|a r IH]; simpl; [auto|]. intros H.
  unfold has_char in H. simpl in H. apply orb_false_iff in H as [H1 H2].
  destruct (Py.is_space a); [exact (IH H2)|]. unfold has_char. simpl. rewrite H1. exact H2.
Qed.

Lemma has_char_rstrip (c : ascii) (s : string) :
  has_char c s = false -> has_char c (Py.rstrip s) = false.
Proof.
  intros H. unfold Py.rstrip. rewrite has_char_rev. apply has_char_lstrip. rewrite has_char_rev. exact H.
Qed.

Lemma has_char_strip (c : ascii) (s : string) :
  has_char c s = false -> has_char c (Py.strip s) = false.
Proof. intros H. apply has_char_rstrip, has_char_lstrip, H. Qed.

Lemma lstrip_app_nonspace (k r : string) (c : ascii) :
  Py.is_space c = false -> Py.lstrip (k ++ String c r) = Py.lstrip k ++ String c r.
Proof.
  intros Hc. induction k as [|d k IH].
  - simpl. rewrite Hc. reflexivity.
  - rewrite app_cons. simpl. destruct (Py.is_space d); [exact IH|reflexivity].
Qed.

Lemma rstrip_app_nonspace (k v : string) (c : ascii) :
  Py.is_space c = false -> Py.rstrip (k ++ String c v) = k ++ String c (Py.rstrip v).
Proof.
  intros Hc. unfold Py.rstrip.
  rewrite rev_str_app, rev_str_cons, app_assoc_str, app_cons, app_nil_l.
  rewrite lstrip_app_nonspace by exact Hc.
  rewrite rev_str_app, rev_str_cons, rev_str_involutive, app_assoc_str, app_cons, app_nil_l.
  reflexivity.
Qed.

Lemma rstrip_cons_nonspace (d : ascii) (v : string) :
  Py.is_space d = false -> Py.rstrip (String d v) = String d (Py.rstrip v).
Proof. intros Hd. exact (rstrip_app_nonspace "" v d Hd). Qed.

(** Stripping a text with a non-blank character in the middle. *)
Lemma strip_around (k v : string) (c : ascii) :
  Py.is_space c = false -> Py.strip (k ++ String c v) = Py.lstrip k ++ String c (Py.rstrip v).
Proof.
  intros Hc. unfold Py.strip. rewrite lstrip_app_nonspace by exact Hc.
  apply rstrip_app_nonspace, Hc.
Qed.

Lemma split_once_none_char (c0 : ascii) (t s : string) :
  has_char c0 s = false -> Py.split_once s (String c0 t) = None.
Proof.
  induction s as [|c r IH]; intros H; [reflexivity|].
  unfold has_char in H. simpl in H. apply orb_false_iff in H as [H1 H2].
  rewrite split_once_skip; [rewrite (IH H2); reflexivity|].
  apply prefix_cons_neq. intros ->. rewrite Ascii.eqb_refl in H1. discriminate.
Qed.

Lemma split_once_app_char (c0 : ascii) (t a b : string) :
  has_char c0 a = false -> Py.split_once (a ++ String c0 t ++ b) (String c0 t) = Some (a, b).
Proof.
  induction a as [|c r IH]; intros H.
  - rewrite app_nil_l, split_once_hit by apply prefix_app.
    rewrite drop_app. reflexivity.
  - unfold has_char in H. simpl in H. apply orb_false_iff in H as [H1 H2].
    rewrite app_cons, split_once_skip.
    + rewrite (IH H2). reflexivity.
    + apply prefix_cons_neq. intros ->. rewrite Ascii.eqb_refl in H1. discriminate.
Qed.

Lemma replace_noop (c0 : ascii) (t new s : string) :
  has_char c0 s = false -> Dot.replace (String c0 t) new s = s.
Proof.
  intros H. unfold Dot.replace. simpl. rewrite (split_once_none_char c0 t s H). reflexivity.
Qed.

(** X1: a clause [k!=v] evaluates to the negation of the clause [k=v], when
    [k] holds no [!] or [=] and [v] holds no [!]. *)
Theorem evaluate_clause_neq_negates_eq (k v : string) (o : Outcome) (ctx : Context) :
  has_char "!" k = false -> has_char "=" k = false -> has_char "!" v = false ->
  evaluate_clause (k ++ "!=" ++ v) o ctx = negb (evaluate_clause (k ++ "=" ++ v) o ctx).
Proof.
  intros Hk1 Hk2 Hv. unfold evaluate_clause.
  change ("!=" ++ v) with (String "!" ("=" ++ v)).
  change ("=" ++ v) with (String "=" v).
  rewrite (strip_around k (String "=" v) "!") by reflexivity.
  rewrite (rstrip_cons_nonspace "=" v) by reflexivity.
  rewrite (strip_around k v "=") by reflexivity.
  change (String "!" (String "=" (Py.rstrip v))) with ("!=" ++ Py.rstrip v).
  rewrite (split_once_app_char "!" "=" (Py.lstrip k) (Py.rstrip v)) by (apply has_char_lstrip; exact Hk1).
  rewrite (split_once_none_char "!" "=").
  2:{ change (String "=" (Py.rstrip v)) with ("=" ++ Py.rstrip v).
      rewrite !has_char_app, (has_char_lstrip _ _ Hk1), (has_char_rstrip _ _ Hv). reflexivity. }
  change (String "=" (Py.rstrip v)) with ("=" ++ Py.rstrip v).
  rewrite (split_once_app_char "=" "" (Py.lstrip k) (Py.rstrip v)) by (apply has_char_lstrip; exact Hk2).
  reflexivity.
Qed.

(** X2: the clause [outcome=<status>], with the value bare or in double
    quotes, holds exactly when the outcome has that status. *)
Theorem evaluate_clause_outcome (s : StageStatus) (o : Outcome) (ctx : Context) :
  (evaluate_clause ("outcome=" ++ status_value s) o ctx = true <-> status o = s) /\
  (evaluate_clause ("outcome=" ++ Dot.dq ++ status_value s ++ Dot.dq) o ctx = true <-> status o = s).
Proof.
  destruct o as [st pl sn cu nt fr]. simpl.
  destruct s, st; vm_compute; split; split; intros H; (reflexivity || discriminate || exact H).
Qed.

Lemma lstrip_shape (s : string) :
  Py.lstrip s = "" \/ exists c r, Py.lstrip s = String c r /\ Py.is_space c = false.
Proof.
  induction s as [|a r IH]; simpl; [left; reflexivity|].
  destruct (Py.is_space a) eqn:E; [exact IH|right; exists a, r; split; [reflexivity|exact E]].
Qed.

Lemma lstrip_nil_all (s : string) :
  Py.lstrip s = "" -> forallb Py.is_space (list_ascii_of_string s) = true.
Proof.
  induction s as [|a r IH]; simpl; [reflexivity|].
  destruct (Py.is_space a); [exact IH|discriminate].
Qed.

Lemma forallb_rev_str (p : ascii -> bool) (s : string) :
  forallb p (list_ascii_of_string (Py.rev_str s)) = forallb p (list_ascii_of_string s).
Proof.
  unfold Py.rev_str. rewrite list_ascii_of_string_of_list_ascii.
  induction (list_ascii_of_string s) as [|a l IH]; [reflexivity|].
  simpl. rewrite forallb_app, IH. simpl. rewrite andb_true_r, andb_comm. reflexivity.
Qed.

(** A text that strips to nothing is all whitespace. *)
Lemma strip_nil_all (s : string) :
  Py.strip s = "" -> forallb Py.is_space (list_ascii_of_string s) = true.
Proof.
  unfold Py.strip, Py.rstrip. intros H. apply rev_str_nil, lstrip_nil_all in H.
  rewrite forallb_rev_str in H.
  destruct (lstrip_shape s) as [E|[c [r [E Hc]]]]; [exact (lstrip_nil_all s E)|].
  rewrite E in H. simpl in H. rewrite Hc in H. discriminate.
Qed.

Lemma has_char_all_space (c : ascii) (s : string) :
  forallb Py.is_space (list_ascii_of_string s) = true -> Py.is_space c = false -> has_char c s = false.
Proof.
  intros H Hc. unfold has_char. induction (list_ascii_of_string s) as [|a l IH]; [reflexivity|].
  simpl in *. apply andb_true_iff in H as [H1 H2]. rewrite (IH H2), orb_false_r.
  destruct (Ascii.eqb c a) eqn:E; [|reflexivity]. apply Ascii.eqb_eq in E. subst. congruence.
Qed.

Lemma prefix_app_r (a b t : string) :
  String.prefix a b = true -> String.prefix a (b ++ t) = true.
Proof.
  revert b. induction a as [|x a IH]; intros b H; [destruct (b ++ t); reflexivity|].
  destruct b as [|y b]; [discriminate|]. rewrite app_cons.
  destruct (ascii_dec x y) as [->|Hne].
  - rewrite prefix_cons_eq in *. exact (IH b H).
  - rewrite (prefix_cons_neq _ _ _ _ Hne) in H. discriminate.
Qed.

Lemma contains_app_l (sub s t : string) :
  Py.contains sub s = true -> Py.contains sub (s ++ t) = true.
Proof.
  induction s as [|c s IH]; intros H.
  - destruct sub; [|discriminate]. apply contains_hit. destruct t; reflexivity.
  - rewrite app_cons, contains_cons. rewrite contains_cons in H.
    apply orb_true_iff in H as [H|H].
    + pose proof (prefix_app_r _ _ t H) as H'. rewrite app_cons in H'. rewrite H'. reflexivity.
    + rewrite (IH H), orb_true_r. reflexivity.
Qed.

Lemma prefix_amp_extend (d : ascii) (x r : string) :
  String.prefix "&&" (String d (x ++ "&")) = false ->
  String.prefix "&&" (String d (x ++ "&&" ++ r)) = false.
Proof.
  intros Hp. destruct (ascii_dec "&" d) as [<-|Hne]; [|apply prefix_cons_neq, Hne].
  rewrite prefix_cons_eq in *. destruct x as [|e x].
  - vm_compute in Hp. discriminate.
  - rewrite app_cons in *. destruct (ascii_dec "&" e) as [<-|Hne].
    + rewrite prefix1_eq in Hp. discriminate.
    + apply prefix1_neq, Hne.
Qed.

Lemma split_once_amp (c r : string) :
  Py.contains "&&" (c ++ "&") = false -> Py.split_once (c ++ "&&" ++ r) "&&" = Some (c, r).
Proof.
  induction c as [|d c IH]; intros H.
  - rewrite app_nil_l, split_once_hit by apply prefix_app. rewrite drop_app. reflexivity.
  - rewrite (app_cons d c) in *. rewrite contains_cons in H. apply orb_false_iff in H as [Hp Hc].
    rewrite split_once_skip by (apply prefix_amp_extend, Hp). rewrite (IH Hc). reflexivity.
Qed.

Lemma split_amp_single (c : string) :
  Py.contains "&&" (c ++ "&") = false -> Py.split c "&&" = [c].
Proof.
  intros H. apply split_no_sep, split_once_none.
  destruct (Py.contains "&&" c) eqn:E; [|reflexivity].
  rewrite (contains_app_l _ _ "&" E) in H. discriminate.
Qed.

Lemma split_concat_amp (cs : list string) :
  cs <> [] -> Forall (fun c => Py.contains "&&" (c ++ "&") = false) cs ->
  Py.split (String.concat "&&" cs) "&&" = cs.
Proof.
  induction cs as [|c cs IH]; intros Hne HF; [congruence|].
  inversion HF as [|? ? Hc HF']; subst.
  destruct cs as [|c' cs].
  - exact (split_amp_single c Hc).
  - change (String.concat "&&" (c :: c' :: cs)) with (c ++ "&&" ++ String.concat "&&" (c' :: cs)).
    rewrite (split_at_first _ "&&" c (String.concat "&&" (c' :: cs))) by (discriminate || apply split_once_amp, Hc).
    rewrite IH by (discriminate || exact HF'). reflexivity.
Qed.

Lemma evaluate_condition_clauses (s : string) (o : Outcome) (ctx : Context) :
  evaluate_condition s o ctx =
  forallb (fun c => evaluate_clause c o ctx)
    (List.filter (fun c => negb (Py.is_empty c)) (map Py.strip (Py.split s "&&"))).
Proof.
  unfold evaluate_condition.
  destruct (Py.is_empty s || Py.is_empty (Py.strip s)) eqn:B; [|reflexivity].
  assert (A : forallb Py.is_space (list_ascii_of_string s) = true).
  { apply orb_true_iff in B as [B|B]; [destruct s; [reflexivity|discriminate]|].
    apply strip_nil_all. destruct (Py.strip s); [reflexivity|discriminate]. }
  rewrite split_no_sep by (apply split_once_none_char, has_char_all_space; [exact A|reflexivity]).
  simpl. rewrite (strip_all_space s A). reflexivity.
Qed.

(** X3: a condition made of clauses joined by [&&] holds exactly when every
    clause holds on its own, when no clause contains [&&] (nor ends in [&]). *)
Theorem evaluate_condition_conj (cs : list string) (o : Outcome) (ctx : Context) :
  Forall (fun c => Py.contains "&&" (c ++ "&") = false) cs ->
  evaluate_condition (String.concat "&&" cs) o ctx =
  forallb (fun c => evaluate_condition c o ctx) cs.
Proof.
  intros HF. destruct cs as [|c0 cs0]; [reflexivity|].
  rewrite evaluate_condition_clauses, split_concat_amp by (discriminate || exact HF).
  induction HF as [|c cs Hc HF IH]; [reflexivity|].
  cbn [forallb map List.filter].
  rewrite (evaluate_condition_clauses c), (split_amp_single c Hc). cbn [forallb map List.filter].
  destruct (negb (Py.is_empty (Py.strip c))); simpl; rewrite IH; [rewrite andb_true_r|]; reflexivity.
Qed.

(** X4: after a stage, the context maps [outcome] to the status value,
    [preferred_label] to the preferred label when it is non-empty, any other
    key to the stage's context update if there is one, and otherwise keeps
    its previous value. *)
Theorem merge_outcome_lookup (ctx : Context) (oc : Outcome) (k : string) :
  merge_outcome ctx oc !! k =
  if String.eqb k "outcome" then Some (PyStr (status_value (status oc)))
  else if String.eqb k "preferred_label" && negb (Py.is_empty (preferred_label oc))
  then Some (PyStr (preferred_label oc))
  else match context_updates oc !! k with Some v => Some v | None => ctx !! k end.
Proof.
  unfold merge_outcome, ctx_set, apply_updates.
  destruct (String.eqb_spec k "outcome") as [->|Hk1].
  - destruct (negb (Py.is_empty (preferred_label oc))).
    + rewrite lookup_insert_ne by discriminate. apply lookup_insert_eq.
    + apply lookup_insert_eq.
  - destruct (String.eqb_spec k "preferred_label") as [->|Hk2]; simpl.
    + destruct (negb (Py.is_empty (preferred_label oc))).
      * apply lookup_insert_eq.
      * rewrite lookup_insert_ne by discriminate. rewrite lookup_union.
        destruct (context_updates oc !! "preferred_label"), (ctx !! "preferred_label"); reflexivity.
    + destruct (negb (Py.is_empty (preferred_label oc)));
        rewrite !lookup_insert_ne by congruence;
        rewrite lookup_union; destruct (context_updates oc !! k), (ctx !! k); reflexivity.
Qed.

Lemma In_ins (x y : Edge.t) (l : list Edge.t) : In x (ins y l) <-> x = y \/ In x l.
Proof.
  induction l as [|z l IH]; simpl; [intuition congruence|].
  destruct (key_le y z); simpl; [intuition congruence|]. rewrite IH. intuition congruence.
Qed.

Lemma In_sorted_by_key (x : Edge.t) (l : list Edge.t) : In x (sorted_by_key l) <-> In x l.
Proof.
  induction l as [|y l IH]; simpl; [tauto|]. rewrite In_ins, IH. intuition congruence.
Qed.

Lemma first_suggested_in (sids : list string) (edges : list Edge.t) (e : Edge.t) :
  first_suggested sids edges = Some e -> In e edges.
Proof.
  induction sids as [|sid r IH]; simpl; [discriminate|].
  destruct (find _ edges) eqn:F.
  - intros [=<-]. apply (find_some _ _ F).
  - exact IH.
Qed.

Lemma select_edge_in (node : Node.t) (o : Outcome) (ctx : Context) (g : Graph.t) (e : Edge.t) :
  select_edge node o ctx g = Some e -> In e (Graph.outgoing_edges g (Node.id node)).
Proof.
  unfold select_edge. destruct (Graph.outgoing_edges g (Node.id node)) as [|e0 r] eqn:E; [discriminate|].
  rewrite <- E. set (edges := Graph.outgoing_edges g (Node.id node)).
  assert (Hs : forall l, incl l edges -> forall x t, sorted_by_key l = x :: t -> In x edges).
  { intros l Hl x t Hx. apply Hl, In_sorted_by_key. rewrite Hx. left. reflexivity. }
  destruct (sorted_by_key (guard_matched edges o ctx)) as [|x t] eqn:S1.
  2:{ intros [=<-]. apply (Hs _ (fun y Hy => proj1 (proj1 (filter_In _ _ _) Hy)) _ _ S1). }
  destruct (if negb (Py.is_empty (preferred_label o)) then _ else None) as [x|] eqn:B.
  { intros [=<-]. destruct (negb _); [apply (find_some _ _ B)|discriminate]. }
  destruct (first_suggested (suggested_next_ids o) edges) as [x|] eqn:F.
  { intros [=<-]. exact (first_suggested_in _ _ _ F). }
  destruct (sorted_by_key (List.filter _ edges)) as [|x t] eqn:S2.
  2:{ intros [=<-]. apply (Hs _ (fun y Hy => proj1 (proj1 (filter_In _ _ _) Hy)) _ _ S2). }
  destruct (sorted_by_key edges) as [|x t] eqn:S3; simpl; [discriminate|].
  intros [=<-]. apply (Hs _ (fun y Hy => Hy) _ _ S3).
Qed.

Lemma assoc_In {A} (k : string) (v : A) (l : list (string * A)) :
  In (k, v) l -> exists v', Graph.assoc k l = Some v'.
Proof.
  induction l as [|[k' v''] l IH]; simpl; [tauto|]. intros [[=-> ->]|H].
  - rewrite String.eqb_refl. eauto.
  - destruct (String.eqb k k'); eauto.
Qed.

(** X7: the start node found is a node of the graph, and there is none
    exactly when no node has shape [Mdiamond] and no node has id [start] or
    [Start]. *)
Theorem find_start_node_spec (g : Graph.t) :
  (forall s, Graph.find_start_node g = Some s -> exists n, Graph.get_node g s = Some n) /\
  (Graph.find_start_node g = None <->
   Forall (fun p => Node.shape (snd p) <> "Mdiamond") (Graph.nodes g) /\
   Graph.get_node g "start" = None /\ Graph.get_node g "Start" = None).
Proof.
  unfold Graph.find_start_node. split.
  - intros s. destruct (find _ (Graph.nodes g)) as [[nid n]|] eqn:F.
    + intros [=<-]. apply find_some in F as [F _]. exact (assoc_In _ _ _ F).
    + destruct (Graph.get_node g "start") eqn:S1; [intros [=<-]; eauto|].
      destruct (Graph.get_node g "Start") eqn:S2; [intros [=<-]; eauto|discriminate].
  - destruct (find _ (Graph.nodes g)) as [[nid n]|] eqn:F.
    + split; [discriminate|]. intros [HF _]. apply find_some in F as [F E].
      rewrite List.Forall_forall in HF. exfalso. apply (HF _ F). simpl in E. apply String.eqb_eq, E.
    + assert (HF : Forall (fun p => Node.shape (snd p) <> "Mdiamond") (Graph.nodes g)).
      { apply List.Forall_forall. intros p Hp E. pose proof (find_none _ _ F p Hp) as E'. cbv beta in E'.
        rewrite E, String.eqb_refl in E'. discriminate. }
      destruct (Graph.get_node g "start"); [split; [discriminate|intros [_ [? _]]; discriminate]|].
      destruct (Graph.get_node g "Start"); [split; [discriminate|intros [_ [_ ?]]; discriminate]|].
      tauto.
Qed.

(** X5: when an iteration of the run loop moves on, it executed the current,
    non-terminal node, moved to the target of one of that node's outgoing
    edges, recorded the outcome for the node as the last outcome, and merged
    the outcome into the context. *)
Theorem engine_step_continue (execute : Node.t -> Context -> Outcome * Context)
    (g : Graph.t) (st st' : EState) :
  engine_step execute g st = Continue st' ->
  exists node oc ctx1 e,
    Graph.get_node g (current_id st) = Some node /\
    Graph.is_terminal g (current_id st) = false /\
    execute node (ectx st) = (oc, ctx1) /\
    In e (Graph.outgoing_edges g (Node.id node)) /\
    current_id st' = Edge.to_node e /\
    node_outcomes st' = dict_set (node_outcomes st) (current_id st) oc /\
    last_outcome st' = Some oc /\
    ectx st' = merge_outcome ctx1 oc.
Proof.
  unfold engine_step. destruct (Graph.get_node g (current_id st)) as [node|]; [|discriminate].
  destruct (Graph.is_terminal g (current_id st)) eqn:T.
  { destruct (goal_gate_violation g (node_outcomes st)) as [[]|]; discriminate. }
  destruct (execute node (ectx st)) as [oc ctx1] eqn:X.
  assert (Hin : forall e t, sorted_by_key (guard_matched (Graph.outgoing_edges g (Node.id node)) oc
                                             (merge_outcome ctx1 oc)) = e :: t ->
                 In e (Graph.outgoing_edges g (Node.id node))).
  { intros e t H. assert (He : In e (sorted_by_key (guard_matched (Graph.outgoing_edges g (Node.id node)) oc
                                             (merge_outcome ctx1 oc)))) by (rewrite H; left; reflexivity).
    apply In_sorted_by_key, filter_In in He. exact (proj1 He). }
  destruct (status oc) eqn:So.
  all: try (destruct (select_edge node oc (merge_outcome ctx1 oc) g) as [e|] eqn:Se;
            [intros [=<-]; exists node, oc, ctx1, e; simpl;
             repeat split; auto; exact (select_edge_in _ _ _ _ _ Se)|discriminate]).
  destruct (sorted_by_key _) as [|e t] eqn:Sk; [discriminate|].
  intros [=<-]. exists node, oc, ctx1, e. simpl. repeat split; auto. exact (Hin e t eq_refl).
Qed.














Lemma substring_0_app (a b : string) : substring 0 (String.length a) (a ++ b) = a.
Proof.
  induction a as [|c a IH]; [apply substring_0_0|]. rewrite app_cons. simpl. rewrite IH. reflexivity.
Qed.

Lemma replace_fuel_none (k : nat) (old new s : string) :
  Py.split_once s old = None -> Dot.replace_fuel k old new s = s.
Proof. intros H. destruct k; simpl; [reflexivity|]. rewrite H. reflexivity. Qed.

Lemma strip_quoted (t : string) :
  Py.strip (Dot.dq ++ t ++ Dot.dq) = String (Dot.chr 34) (t ++ String (Dot.chr 34) "").
Proof.
  change (Dot.dq ++ t ++ Dot.dq) with ("" ++ String (Dot.chr 34) (t ++ String (Dot.chr 34) "")).
  rewrite strip_around by reflexivity. rewrite rstrip_app_nonspace by reflexivity. reflexivity.
Qed.

Lemma parse_value_quoted_inner (t : string) :
  Dot._parse_value (Dot.dq ++ t ++ Dot.dq) =
  PyStr (Dot.replace (Dot.bslash ++ Dot.bslash) Dot.bslash
          (Dot.replace (Dot.bslash ++ Dot.dq) Dot.dq
            (Dot.replace (Dot.bslash ++ "t") (String (Dot.chr 9) "")
              (Dot.replace (Dot.bslash ++ "n") (String (Dot.chr 10) "") t)))).
Proof.
  unfold Dot._parse_value. rewrite strip_quoted.
  rewrite rev_str_cons, rev_str_app.
  change (Py.rev_str (String (Dot.chr 34) "")) with (String (Dot.chr 34) "").
  rewrite app_cons, app_nil_l, app_cons.
  unfold Dot.dq. rewrite !prefix1_eq. cbn [andb].
  unfold Py.slice. cbn [String.length]. rewrite length_app. cbn [String.length].
  replace (S (String.length t + 1) - 1 - 1)%nat with (String.length t) by lia.
  change (substring 1 (String.length t) (String (Dot.chr 34) (t ++ String (Dot.chr 34) "")))
    with (substring 0 (String.length t) (t ++ String (Dot.chr 34) "")).
  rewrite substring_0_app. reflexivity.
Qed.

(** X9: a double-quoted attribute value without a backslash parses to the
    text between the quotes. *)
Theorem parse_value_quoted (t : string) :
  has_char (Dot.chr 92) t = false -> Dot._parse_value (Dot.dq ++ t ++ Dot.dq) = PyStr t.
Proof.
  intros H. rewrite parse_value_quoted_inner.
  change (Dot.bslash ++ "n") with (String (Dot.chr 92) "n").
  change (Dot.bslash ++ "t") with (String (Dot.chr 92) "t").
  change (Dot.bslash ++ Dot.dq) with (String (Dot.chr 92) Dot.dq).
  change (Dot.bslash ++ Dot.bslash) with (String (Dot.chr 92) Dot.bslash).
  rewrite (replace_noop _ "n" _ t H), (replace_noop _ "t" _ t H), (replace_noop _ Dot.dq _ t H).
  rewrite (replace_noop _ Dot.bslash _ t H). reflexivity.
Qed.

Lemma split_once_app_free (c0 : ascii) (t a s : string) :
  has_char c0 a = false ->
  Py.split_once (a ++ s) (String c0 t) =
  match Py.split_once s (String c0 t) with Some (x, y) => Some (a ++ x, y) | None => None end.
Proof.
  induction a as [|c a IH]; intros H.
  - rewrite app_nil_l. destruct (Py.split_once s _) as [[x y]|]; reflexivity.
  - unfold has_char in H. simpl in H. apply orb_false_iff in H as [H1 H2].
    rewrite app_cons, split_once_skip.
    + rewrite (IH H2). destruct (Py.split_once s _) as [[x y]|]; reflexivity.
    + apply prefix_cons_neq. intros ->. rewrite Ascii.eqb_refl in H1. discriminate.
Qed.

Lemma split_once_lone (c0 x : ascii) (t b : string) :
  has_char c0 b = false -> x <> c0 -> String.prefix t (String x b) = false ->
  Py.split_once (String c0 (String x b)) (String c0 t) = None.
Proof.
  intros Hb Hx Ht. rewrite split_once_skip by (rewrite prefix_cons_eq; exact Ht).
  rewrite split_once_skip by (apply prefix_cons_neq; congruence).
  rewrite (split_once_none_char _ _ _ Hb). reflexivity.
Qed.

Lemma replace_fuel_first (k : nat) (old new s x y : string) :
  Py.split_once s old = Some (x, y) -> Py.split_once y old = None ->
  Dot.replace_fuel (S k) old new s = x ++ new ++ y.
Proof. intros H1 H2. simpl. rewrite H1, (replace_fuel_none _ _ _ _ H2). reflexivity. Qed.

Lemma replace_none (old new s : string) :
  Py.split_once s old = None -> Dot.replace old new s = s.
Proof. apply replace_fuel_none. Qed.

(** X10: in a double-quoted attribute value, an escaped backslash followed
    by [n] is decoded to a backslash and a newline, because [\n] is replaced
    before [\\]. *)
Theorem parse_value_escaped_backslash_n (a b : string) :
  has_char (Dot.chr 92) a = false -> has_char (Dot.chr 92) b = false ->
  Dot._parse_value (Dot.dq ++ a ++ Dot.bslash ++ Dot.bslash ++ "n" ++ b ++ Dot.dq) =
  PyStr (a ++ Dot.bslash ++ String (Dot.chr 10) b).
Proof.
  intros Ha Hb.
  replace (Dot.dq ++ a ++ Dot.bslash ++ Dot.bslash ++ "n" ++ b ++ Dot.dq)
    with (Dot.dq ++ (a ++ String (Dot.chr 92) (String (Dot.chr 92) (String "n" b))) ++ Dot.dq)
    by (rewrite !app_assoc_str; reflexivity).
  rewrite parse_value_quoted_inner.
  change (Dot.bslash ++ "n") with (String (Dot.chr 92) "n").
  change (Dot.bslash ++ "t") with (String (Dot.chr 92) "t").
  change (Dot.bslash ++ Dot.dq) with (String (Dot.chr 92) Dot.dq).
  change (Dot.bslash ++ Dot.bslash) with (String (Dot.chr 92) Dot.bslash).
  assert (S1 : Py.split_once (a ++ String (Dot.chr 92) (String (Dot.chr 92) (String "n" b)))
                 (String (Dot.chr 92) "n") = Some (a ++ Dot.bslash, b)).
  { rewrite (split_once_app_free _ _ _ _ Ha).
    rewrite split_once_skip by (rewrite prefix_cons_eq; apply prefix1_neq; discriminate).
    rewrite split_once_hit by (rewrite prefix_cons_eq; apply prefix1_eq).
    change (String.length (String (Dot.chr 92) "n")) with 2%nat.
    rewrite !drop_cons, drop_0. reflexivity. }
  unfold Dot.replace at 4.
  rewrite (replace_fuel_first _ _ _ _ _ _ S1 (split_once_none_char _ _ _ Hb)).
  unfold Dot.bslash. rewrite app_assoc_str, app_cons, app_nil_l, app_cons, app_nil_l.
  assert (N : forall t, String.prefix t (String (Dot.chr 10) b) = false ->
              Py.split_once (a ++ String (Dot.chr 92) (String (Dot.chr 10) b)) (String (Dot.chr 92) t) = None).
  { intros t Ht. rewrite (split_once_app_free _ _ _ _ Ha).
    rewrite (split_once_lone _ _ _ _ Hb) by (discriminate || exact Ht). reflexivity. }
  rewrite (replace_none _ _ _ (N "t" ltac:(apply prefix1_neq; discriminate))).
  rewrite (replace_none _ _ _ (N Dot.dq ltac:(apply prefix1_neq; discriminate))).
  rewrite (replace_none _ _ _ (N (String (Dot.chr 92) "") ltac:(apply prefix1_neq; discriminate))).
  reflexivity.
Qed.

Lemma handlers_get_guard (t : string) :
  (if Py.is_empty t then None else handlers_get t) = handlers_get t.
Proof. destruct t; reflexivity. Qed.

Lemma handlers_get_codergen (t : string) : handlers_get t = Some HCodergen <-> t = "codergen".
Proof.
  unfold handlers_get.
  destruct (String.eqb_spec t "start") as [->|?]; [split; discriminate|].
  destruct (String.eqb_spec t "exit") as [->|?]; [split; discriminate|].
  destruct (String.eqb_spec t "codergen") as [->|?]; [tauto|].
  destruct (String.eqb_spec t "tool") as [->|?]; [split; discriminate|].
  destruct (String.eqb_spec t "conditional") as [->|?]; [split; discriminate|].
  split; [discriminate|congruence].
Qed.

Lemma shape_handler_codergen (s : string) :
  match handlers_get (match Graph.assoc s SHAPE_TO_TYPE with Some t => t | None => "codergen" end) with
  | Some h => h | None => HCodergen end = HCodergen <->
  ~ In s ["Mdiamond"; "Msquare"; "parallelogram"; "diamond"].
Proof.
  unfold SHAPE_TO_TYPE. cbn [Graph.assoc].
  destruct (String.eqb_spec s "Mdiamond") as [->|H1]; [cbn; intuition discriminate|].
  destruct (String.eqb_spec s "Msquare") as [->|H2]; [cbn; intuition discriminate|].
  destruct (String.eqb_spec s "box") as [->|H3]; [cbn; intuition discriminate|].
  destruct (String.eqb_spec s "parallelogram") as [->|H4]; [cbn; intuition discriminate|].
  destruct (String.eqb_spec s "diamond") as [->|H5]; [cbn; intuition discriminate|].
  assert (Hn : ~ In s ["Mdiamond"; "Msquare"; "parallelogram"; "diamond"]) by (cbn; intuition congruence).
  destruct (String.eqb s "hexagon"), (String.eqb s "component"), (String.eqb s "tripleoctagon"),
    (String.eqb s "house"); (split; [intros _; exact Hn|intros _; reflexivity]).
Qed.

(** X11: a node gets the codergen handler exactly when its type is
    [codergen], or its type names no registered handler and its shape is
    not one of [Mdiamond], [Msquare], [parallelogram], [diamond]. *)
Theorem resolve_handler_codergen (n : Node.t) :
  _resolve_handler n = HCodergen <->
  Node.type n = "codergen" \/
  (handlers_get (Node.type n) = None /\
   ~ In (Node.shape n) ["Mdiamond"; "Msquare"; "parallelogram"; "diamond"]).
Proof.
  unfold _resolve_handler. rewrite handlers_get_guard.
  destruct (handlers_get (Node.type n)) as [h|] eqn:H.
  - rewrite <- handlers_get_codergen, H. split.
    + intros ->. left. reflexivity.
    + intros [E|[E _]]; [congruence|discriminate].
  - rewrite shape_handler_codergen. split.
    + intros Hn. right. tauto.
    + intros [E|[_ Hn]]; [|exact Hn]. apply handlers_get_codergen in E. congruence.
Qed.

Lemma prefix_no_dollar (p a x : string) :
  has_char "$"%char p = false -> String.prefix p a = false ->
  String.prefix p (a ++ String "$"%char x) = false.
Proof.
  revert a. induction p as [|e p IH]; intros a Hp Ha; [destruct a; discriminate|].
  unfold has_char in Hp. simpl in Hp. apply orb_false_iff in Hp as [He Hp].
  destruct a as [|y a].
  - apply prefix_cons_neq. intros ->. discriminate.
  - rewrite app_cons. destruct (ascii_dec e y) as [<-|Hne].
    + rewrite prefix_cons_eq in *. exact (IH a Hp Ha).
    + apply prefix_cons_neq, Hne.
Qed.

Lemma split_once_goal (a b : string) :
  Py.contains "$goal" a = false -> Py.split_once (a ++ "$goal" ++ b) "$goal" = Some (a, b).
Proof.
  induction a as [|d a IH]; intros H.
  - rewrite app_nil_l, split_once_hit by apply prefix_app. rewrite drop_app. reflexivity.
  - rewrite contains_cons in H. apply orb_false_iff in H as [Hp Hc].
    rewrite app_cons, split_once_skip; [rewrite (IH Hc); reflexivity|].
    destruct (ascii_dec "$"%char d) as [<-|Hne]; [|apply prefix_cons_neq, Hne].
    rewrite prefix_cons_eq in *. change ("$goal" ++ b) with (String "$"%char ("goal" ++ b)).
    apply prefix_no_dollar; [reflexivity|exact Hp].
Qed.

Lemma concat_goal_cons2 (sep a b : string) (l : list string) :
  String.concat sep (a :: b :: l) = a ++ sep ++ String.concat sep (b :: l).
Proof. reflexivity. Qed.

Lemma replace_fuel_concat (new : string) (ps : list string) (k : nat) :
  Forall (fun a => Py.contains "$goal" a = false) ps -> (length ps <= S k)%nat ->
  Dot.replace_fuel (S k) "$goal" new (String.concat "$goal" ps) = String.concat new ps.
Proof.
  revert k. induction ps as [|a ps IH]; intros k Hf Hl; [reflexivity|].
  apply Forall_cons in Hf as [Ha Hf].
  destruct ps as [|b ps].
  - apply replace_fuel_none, split_once_none, Ha.
  - rewrite concat_goal_cons2. cbn [Dot.replace_fuel]. rewrite (split_once_goal _ _ Ha).
    destruct k as [|k]; [simpl in Hl; lia|].
    rewrite (IH k Hf) by (simpl in *; lia). reflexivity.
Qed.

Lemma concat_goal_length (ps : list string) :
  (length ps <= S (String.length (String.concat "$goal" ps)))%nat.
Proof.
  induction ps as [|a [|b ps] IH]; [simpl; lia|simpl; lia|].
  rewrite concat_goal_cons2, !length_app.
  change (List.length (a :: b :: ps)) with (S (List.length (b :: ps))).
  change (String.length "$goal") with 5%nat. lia.
Qed.

(** X12: write the node prompt (its label when the prompt is empty) as its
    pieces between the occurrences of [$goal], none of which contains
    [$goal]; the codergen prompt is those pieces joined by the goal of the
    context (or of the graph when the context has none), so a prompt
    without [$goal] is kept as it is and every occurrence is replaced. *)
Theorem codergen_prompt_goal (n : Node.t) (ctx : Context) (g : Graph.t) :
  let p := if Py.is_empty (Node.prompt n) then Node.label n else Node.prompt n in
  let goal := let v := get_string ctx "graph.goal" in if Py.is_empty v then Graph.goal g else v in
  (Py.contains "$goal" p = false -> codergen_prompt n ctx g = p) /\
  (forall ps, p = String.concat "$goal" ps ->
   Forall (fun a => Py.contains "$goal" a = false) ps ->
   codergen_prompt n ctx g = String.concat goal ps).
Proof.
  unfold codergen_prompt. cbv zeta. split.
  - intros H. apply replace_none, split_once_none, H.
  - intros ps E Hf. rewrite E. unfold Dot.replace.
    apply replace_fuel_concat; [exact Hf|apply concat_goal_length].
Qed.

Lemma concat_empty_cons (x : string) (l : list string) :
  String.concat "" (x :: l) = x ++ String.concat "" l.
Proof. destruct l; [symmetry; apply app_nil_r|reflexivity]. Qed.

Lemma concat_empty_app (l1 l2 : list string) :
  String.concat "" (l1 ++ l2)%list = String.concat "" l1 ++ String.concat "" l2.
Proof.
  induction l1 as [|x l1 IH]; [reflexivity|].
  change ((x :: l1) ++ l2)%list with (x :: (l1 ++ l2))%list.
  rewrite !concat_empty_cons, IH, app_assoc_str. reflexivity.
Qed.

Lemma of_chars_chars (t : string) : Py.of_chars (Py.chars t) = t.
Proof.
  unfold Py.of_chars. induction t as [|c r IH]; [reflexivity|].
  cbn [Py.chars]. destruct (Py.chars r) as [|x xs] eqn:E.
  - simpl in IH. subst r. reflexivity.
  - destruct (Py.starts_cont x).
    + rewrite concat_empty_cons. rewrite concat_empty_cons in IH.
      rewrite app_cons, IH. reflexivity.
    + rewrite concat_empty_cons, IH. reflexivity.
Qed.

Lemma chars_group_app (c : ascii) (r s : string) :
  Py.all_cont r = true ->
  (forall h hs, Py.chars s = h :: hs -> Py.starts_cont h = false) ->
  Py.chars (String c r ++ s) = String c r :: Py.chars s.
Proof.
  revert c. induction r as [|d r IH]; intros c Hr Hs.
  - rewrite app_cons, app_nil_l. cbn [Py.chars].
    destruct (Py.chars s) as [|h hs] eqn:E; [reflexivity|]. rewrite (Hs h hs eq_refl). reflexivity.
  - simpl in Hr. apply andb_prop in Hr as [Hd Hr].
    rewrite app_cons. cbn [Py.chars]. rewrite (IH d Hr Hs). simpl. rewrite Hd. reflexivity.
Qed.

Lemma chars_ok (t : string) :
  Forall Py.char_ok (Py.chars t) /\ Forall (fun x => Py.starts_cont x = false) (tl (Py.chars t)).
Proof.
  induction t as [|c r [IH1 IH2]]; [split; constructor|].
  cbn [Py.chars]. destruct (Py.chars r) as [|x xs] eqn:E; [split; repeat constructor|].
  apply Forall_cons in IH1 as [Hx Hxs]. simpl in IH2.
  destruct (Py.starts_cont x) eqn:Hs.
  - split; [|exact IH2]. constructor; [|exact Hxs].
    destruct x as [|d x]; [contradiction|]. simpl in *. rewrite Hs. exact Hx.
  - split; [constructor; [reflexivity|constructor; [exact Hx|exact Hxs]]|constructor; [exact Hs|exact IH2]].
Qed.

Lemma chars_of_chars (l : list string) :
  Forall Py.char_ok l -> Forall (fun x => Py.starts_cont x = false) (tl l) ->
  Py.chars (Py.of_chars l) = l.
Proof.
  unfold Py.of_chars. induction l as [|x l IH]; intros H1 H2; [reflexivity|].
  apply Forall_cons in H1 as [Hx Hl]. simpl in H2.
  assert (IH' : Py.chars (String.concat "" l) = l).
  { apply IH; [exact Hl|]. destruct l as [|y l]; [constructor|]. apply Forall_cons in H2 as [_ H2]. exact H2. }
  rewrite concat_empty_cons. destruct x as [|c r]; [contradiction|].
  rewrite chars_group_app; [rewrite IH'; reflexivity|exact Hx|].
  intros h hs E. rewrite IH' in E. subst l. apply Forall_cons in H2 as [H2 _]. exact H2.
Qed.

Lemma take_spec (m : nat) (t : string) :
  String.prefix (Py.take m t) t = true /\ Py.chars (Py.take m t) = firstn m (Py.chars t).
Proof.
  unfold Py.take. split.
  - pose proof (prefix_app (Py.of_chars (firstn m (Py.chars t))) (Py.of_chars (skipn m (Py.chars t)))) as H.
    unfold Py.of_chars in H. rewrite <- concat_empty_app, List.firstn_skipn in H.
    fold (Py.of_chars (Py.chars t)) in H. rewrite of_chars_chars in H. exact H.
  - destruct (chars_ok t) as [H1 H2]. apply chars_of_chars; [apply Forall_take, H1|].
    destruct m as [|m]; [constructor|]. destruct (Py.chars t) as [|x l]; [constructor|].
    simpl in *. apply Forall_take, H2.
Qed.

(** X13: a codergen stage whose backend returns a text succeeds, records the
    node id as [last_stage] and the first 200 characters of the text (code
    points, a prefix of the text) as [last_response]; a backend that raises
    gives FAIL with the message as reason; with no backend the stage
    succeeds and records [last_stage]. *)
Theorem codergen_outcomes (backend : option (Node.t -> string -> Context -> BackendResult))
    (n : Node.t) (ctx : Context) (g : Graph.t) :
  (forall b t, backend = Some b -> b n (codergen_prompt n ctx g) ctx = BText t ->
   let o := codergen_execute backend n ctx g in
   status o = SUCCESS /\
   context_updates o !! "last_stage" = Some (PyStr (Node.id n)) /\
   exists r, context_updates o !! "last_response" = Some (PyStr r) /\
             String.prefix r t = true /\ Py.chars r = firstn 200 (Py.chars t)) /\
  (forall b m, backend = Some b -> b n (codergen_prompt n ctx g) ctx = BRaise m ->
   codergen_execute backend n ctx g = mkOutcome FAIL "" [] ∅ "" m) /\
  (backend = None ->
   status (codergen_execute backend n ctx g) = SUCCESS /\
   context_updates (codergen_execute backend n ctx g) !! "last_stage" = Some (PyStr (Node.id n))).
Proof.
  unfold codergen_execute. split; [|split].
  - intros b t -> Hb. rewrite Hb. cbv zeta. unfold codergen_completed. simpl.
    split; [reflexivity|]. split; [apply lookup_insert_eq|].
    exists (if Py.is_empty t then "" else Py.take 200 t).
    split; [rewrite lookup_insert_ne by discriminate; apply lookup_singleton_eq|].
    destruct t as [|c t]; [split; reflexivity|]. apply take_spec.
  - intros b m -> Hb. rewrite Hb. reflexivity.
  - intros ->. split; [reflexivity|apply lookup_insert_eq].
Qed.

Lemma firstn_add_skipn {A} (a b : nat) (l : list A) :
  firstn (a + b) l = (firstn a l ++ firstn b (skipn a l))%list.
Proof.
  revert l. induction a as [|a IH]; intros l; [reflexivity|].
  destruct l as [|x l]; simpl; [destruct b; reflexivity|]. rewrite IH. reflexivity.
Qed.

Lemma py_slice_nonneg {A} (l : list A) (i j : Z) :
  (0 <= i)%Z -> (i <= j)%Z -> py_slice l i j = firstn (Z.to_nat (j - i)) (skipn (Z.to_nat i) l).
Proof.
  intros Hi Hj. unfold py_slice, py_index.
  rewrite (proj2 (Z.ltb_ge i 0) Hi), (proj2 (Z.ltb_ge j 0) ltac:(lia)).
  destruct (Z.le_gt_cases (Z.of_nat (length l)) i) as [Hn|Hn].
  - rewrite (Z.min_r i) by lia. rewrite (List.skipn_all2 (n := Z.to_nat i)) by lia.
    rewrite firstn_nil.
    rewrite (List.skipn_all2 (n := Z.to_nat (Z.of_nat (length l)))) by lia. apply firstn_nil.
  - rewrite (Z.min_l i) by lia.
    destruct (Z.le_gt_cases j (Z.of_nat (length l))) as [Hm|Hm].
    + rewrite (Z.min_l j) by lia. reflexivity.
    + rewrite (Z.min_r j) by lia.
      rewrite !firstn_all2; [reflexivity| |]; rewrite length_skipn; lia.
Qed.

(** X14: with a positive page size, pages [1..k] of [list_tasks] list the
    first [k * size] tasks from the newest, each once and in order, and
    [total] is the number of tasks. *)
Theorem list_tasks_pages (w : World) (size : Z) (k : nat) :
  (0 < size)%Z ->
  concat (map (fun p => fst (list_tasks (Z.of_nat p) size w)) (seq 1 k)) =
  map task_row (firstn (k * Z.to_nat size) (rev (task_store w))) /\
  snd (list_tasks 1 size w) = Z.of_nat (length (task_store w)).
Proof.
  intros Hs. split; [|unfold list_tasks; simpl; rewrite length_rev; reflexivity].
  induction k as [|k IH]; [reflexivity|].
  rewrite seq_S, List.map_app, concat_app, IH. simpl. rewrite List.app_nil_r.
  unfold list_tasks. simpl fst.
  rewrite py_slice_nonneg by nia.
  replace (Z.to_nat ((Z.of_nat (S k) - 1) * size + size - (Z.of_nat (S k) - 1) * size))
    with (Z.to_nat size) by lia.
  replace (Z.to_nat ((Z.of_nat (S k) - 1) * size)) with (k * Z.to_nat size)%nat by nia.
  rewrite <- List.map_app, <- firstn_add_skipn. f_equal. f_equal. lia.
Qed.

Lemma py_index_nonneg (i n : Z) : (0 <= n)%Z -> (0 <= py_index i n)%Z.
Proof. intros Hn. unfold py_index. destruct (i <? 0)%Z eqn:E; lia. Qed.

Lemma py_index_neg (i n : Z) : (i < 0)%Z -> (0 <= i + n)%Z -> py_index i n = (i + n)%Z.
Proof. intros H1 H2. unfold py_index. rewrite (proj2 (Z.ltb_lt i 0) H1). lia. Qed.

Lemma py_slice_indices {A} (l : list A) (i j : Z) :
  py_slice l i j =
  firstn (Z.to_nat (py_index j (Z.of_nat (length l)) - py_index i (Z.of_nat (length l))))
    (skipn (Z.to_nat (py_index i (Z.of_nat (length l)))) l).
Proof. reflexivity. Qed.

(** X15: page 0 of [list_tasks] is empty; with a positive size and at least
    [2 * size] tasks, page -1 lists the tasks at positions [size + 1] to
    [2 * size] counted from the oldest, newest first. *)
Theorem list_tasks_nonpositive_pages (w : World) (size : Z) :
  fst (list_tasks 0 size w) = [] /\
  ((0 < size)%Z -> (2 * size <= Z.of_nat (length (task_store w)))%Z ->
   fst (list_tasks (-1) size w) =
   map task_row (rev (firstn (Z.to_nat size) (skipn (Z.to_nat size) (task_store w))))).
Proof.
  unfold list_tasks. simpl fst. rewrite !py_slice_indices, length_rev. split.
  - replace ((0 - 1) * size + size)%Z with 0%Z by ring.
    assert (E : py_index 0 (Z.of_nat (length (task_store w))) = 0%Z) by (unfold py_index; simpl; lia).
    rewrite E. pose proof (py_index_nonneg ((0 - 1) * size) (Z.of_nat (length (task_store w))) ltac:(lia)).
    replace (Z.to_nat (0 - py_index ((0 - 1) * size) (Z.of_nat (length (task_store w))))) with 0%nat by lia.
    reflexivity.
  - intros Hs Hn.
    rewrite !py_index_neg by lia.
    replace (Z.to_nat ((-1 - 1) * size + size + Z.of_nat (length (task_store w)) -
                       ((-1 - 1) * size + Z.of_nat (length (task_store w))))) with (Z.to_nat size) by lia.
    rewrite skipn_rev, firstn_rev, length_firstn, skipn_firstn_comm.
    f_equal. f_equal. f_equal; [|f_equal]; lia.
Qed.

Lemma isolate_fuel_split {Block} (json_dumps : Block -> string) append fuel doc (blocks : list Block) prefix :
  (2 <= length blocks)%nat ->
  isolate_fuel json_dumps append (S fuel) doc blocks prefix =
  match append doc (firstn (Nat.div (length blocks) 2) blocks) with
  | Some _ => isolate_fuel json_dumps append fuel doc (firstn (Nat.div (length blocks) 2) blocks) (prefix ++ " left")
  | None =>
      match append (doc ++ firstn (Nat.div (length blocks) 2) blocks)%list (skipn (Nat.div (length blocks) 2) blocks) with
      | Some _ => isolate_fuel json_dumps append fuel (doc ++ firstn (Nat.div (length blocks) 2) blocks)%list
                    (skipn (Nat.div (length blocks) 2) blocks) (prefix ++ " right")
      | None => ((doc ++ firstn (Nat.div (length blocks) 2) blocks) ++ skipn (Nat.div (length blocks) 2) blocks, None)%list
      end
  end.
Proof. intros H. destruct blocks as [|b [|b2 rest]]; simpl in H; [lia|lia|reflexivity]. Qed.

Lemma append_loop_S {Block} (json_dumps : Block -> string) append f i doc (blocks : list Block) :
  append_loop json_dumps append (S f) i doc blocks =
  if Nat.leb (length blocks) i then (doc, None) else
  match append doc (firstn BATCH_SIZE (skipn i blocks)) with
  | None => append_loop json_dumps append f (i + BATCH_SIZE) (doc ++ firstn BATCH_SIZE (skipn i blocks))%list blocks
  | Some msg =>
      if negb (Py.contains "invalid param" msg) && negb (Py.contains "1770001" msg)
      then (doc, Some msg)
      else match _isolate_and_raise json_dumps append doc (firstn BATCH_SIZE (skipn i blocks))
                   ("batch_offset=" ++ Py.Z_to_str (Z.of_nat i)) with
           | (d, Some e) => (d, Some e)
           | (d, None) => append_loop json_dumps append f (i + BATCH_SIZE) d blocks
           end
  end.
Proof. reflexivity. Qed.

Section IsolationProofs.

Variable Block : Type.
Local Open Scope list_scope.
Variable json_dumps : Block -> string.
Variable append_document_blocks : list Block -> list Block -> option string.
Variable accepted : Block -> bool.
Hypothesis append_accepts :
  forall doc batch, append_document_blocks doc batch = None <-> forallb accepted batch = true.
Hypothesis append_msg :
  forall doc batch msg, append_document_blocks doc batch = Some msg -> Py.contains "invalid param" msg = true.

Lemma append_rejects doc batch :
  forallb accepted batch = false -> exists msg, append_document_blocks doc batch = Some msg.
Proof.
  intros H. destruct (append_document_blocks doc batch) as [m|] eqn:E; [eauto|].
  apply append_accepts in E. congruence.
Qed.

Lemma isolate_fuel_first_rejected fuel : forall doc blocks prefix,
  (length blocks <= S fuel)%nat -> forallb accepted blocks = false ->
  exists pre b post pfx,
    blocks = pre ++ b :: post /\ forallb accepted pre = true /\ accepted b = false /\
    isolate_fuel json_dumps append_document_blocks fuel doc blocks prefix =
      (doc ++ pre, Some (pfx ++ single_block_error json_dumps b)%string).
Proof.
  induction fuel as [|f IH]; intros doc blocks prefix Hlen Hrej.
  - destruct blocks as [|b [|b2 rest]]; simpl in *; try discriminate; try lia.
    exists [], b, [], prefix. rewrite andb_true_r in Hrej.
    rewrite List.app_nil_r. repeat split; auto.
  - destruct blocks as [|b [|b2 rest]] eqn:Eb; [simpl in Hrej; discriminate| |].
    + exists [], b, [], prefix. simpl in Hrej. rewrite andb_true_r in Hrej.
      rewrite List.app_nil_r. repeat split; auto.
    + rewrite <- Eb in *. 
      assert (H2 : (2 <= length blocks)%nat) by (subst; simpl; lia).
      set (mid := Nat.div (length blocks) 2).
      assert (Hdm : (length blocks = 2 * mid + length blocks mod 2)%nat)
        by (unfold mid; apply Nat.div_mod; lia).
      pose proof (Nat.mod_upper_bound (length blocks) 2 ltac:(lia)).
      assert (Hsplit : blocks = firstn mid blocks ++ skipn mid blocks) by (symmetry; apply firstn_skipn).
      assert (Hl : (length (firstn mid blocks) <= S f)%nat) by (rewrite length_firstn; lia).
      assert (Hr : (length (skipn mid blocks) <= S f)%nat) by (rewrite length_skipn; lia).
      assert (Hfb : forallb accepted blocks = forallb accepted (firstn mid blocks) && forallb accepted (skipn mid blocks))
        by (rewrite Hsplit at 1; apply forallb_app).
      replace (isolate_fuel json_dumps append_document_blocks (S f) doc blocks prefix) with
        (match append_document_blocks doc (firstn mid blocks) with
         | Some _ => isolate_fuel json_dumps append_document_blocks f doc (firstn mid blocks) (prefix ++ " left")%string
         | None =>
             match append_document_blocks (doc ++ firstn mid blocks) (skipn mid blocks) with
             | Some _ => isolate_fuel json_dumps append_document_blocks f (doc ++ firstn mid blocks) (skipn mid blocks) (prefix ++ " right")%string
             | None => ((doc ++ firstn mid blocks) ++ skipn mid blocks, None)
             end
         end) by (subst blocks; reflexivity).
      destruct (forallb accepted (firstn mid blocks)) eqn:Fl.
      * simpl in Hfb. rewrite Hfb in Hrej.
        rewrite (proj2 (append_accepts doc _) Fl).
        destruct (append_rejects (doc ++ firstn mid blocks) _ Hrej) as [m Hm]. rewrite Hm.
        destruct (IH (doc ++ firstn mid blocks) (skipn mid blocks) (prefix ++ " right")%string Hr Hrej)
          as (pre & x & post & pfx & Hs & Hp & Hb & Hres).
        exists (firstn mid blocks ++ pre), x, post, pfx. repeat split.
        -- rewrite Hsplit at 1. rewrite Hs. apply List.app_assoc.
        -- rewrite forallb_app, Fl, Hp. reflexivity.
        -- exact Hb.
        -- rewrite Hres, List.app_assoc. reflexivity.
      * destruct (append_rejects doc _ Fl) as [m Hm]. rewrite Hm.
        destruct (IH doc (firstn mid blocks) (prefix ++ " left")%string Hl Fl)
          as (pre & x & post & pfx & Hs & Hp & Hb & Hres).
        exists pre, x, (post ++ skipn mid blocks), pfx. repeat split; auto.
        rewrite Hsplit at 1. rewrite Hs. rewrite <- List.app_assoc. reflexivity.
Qed.

Lemma append_loop_first_rejected (blocks : list Block) fuel : forall i doc,
  (length blocks <= i + BATCH_SIZE * fuel)%nat ->
  (forallb accepted (skipn i blocks) = true ->
   append_loop json_dumps append_document_blocks fuel i doc blocks = (doc ++ skipn i blocks, None)) /\
  (forallb accepted (skipn i blocks) = false ->
   exists pre b post pfx,
     skipn i blocks = pre ++ b :: post /\ forallb accepted pre = true /\ accepted b = false /\
     append_loop json_dumps append_document_blocks fuel i doc blocks =
       (doc ++ pre, Some (pfx ++ single_block_error json_dumps b)%string)).
Proof.
  induction fuel as [|f IH]; intros i doc Hlen.
  - rewrite (List.skipn_all2 (n := i)) by lia. simpl. rewrite List.app_nil_r. split; [reflexivity|discriminate].
  - rewrite append_loop_S. destruct (Nat.leb (length blocks) i) eqn:Hle.
    + apply Nat.leb_le in Hle. rewrite (List.skipn_all2 (n := i)) by lia. simpl.
      rewrite List.app_nil_r. split; [reflexivity|discriminate].
    + assert (Hs : skipn i blocks = firstn BATCH_SIZE (skipn i blocks) ++ skipn (i + BATCH_SIZE) blocks).
      { rewrite <- (firstn_skipn BATCH_SIZE (skipn i blocks)) at 1. rewrite List.skipn_skipn.
        rewrite (Nat.add_comm BATCH_SIZE i). reflexivity. }
      destruct (IH (i + BATCH_SIZE) (doc ++ firstn BATCH_SIZE (skipn i blocks))
                 ltac:(unfold BATCH_SIZE in *; lia)) as [IHt IHf].
      assert (Hfa : forallb accepted (skipn i blocks) =
                    forallb accepted (firstn BATCH_SIZE (skipn i blocks)) && forallb accepted (skipn (i + BATCH_SIZE) blocks))
        by (rewrite Hs at 1; apply forallb_app).
      rewrite Hfa.
      destruct (forallb accepted (firstn BATCH_SIZE (skipn i blocks))) eqn:Fb.
      * rewrite (proj2 (append_accepts doc _) Fb). simpl andb. split.
        -- intros Hr. rewrite (IHt Hr), <- List.app_assoc, <- Hs. reflexivity.
        -- intros Hr. destruct (IHf Hr) as (pre & x & post & pfx & Hs' & Hp & Hb & Hres).
           exists (firstn BATCH_SIZE (skipn i blocks) ++ pre), x, post, pfx. repeat split.
           ++ rewrite Hs at 1. rewrite Hs', List.app_assoc. reflexivity.
           ++ rewrite forallb_app, Fb, Hp. reflexivity.
           ++ exact Hb.
           ++ rewrite Hres, List.app_assoc. reflexivity.
      * destruct (append_rejects doc _ Fb) as [m Hm]. rewrite Hm, (append_msg _ _ _ Hm). simpl andb.
        cbv iota. split; [discriminate|intros _].
        unfold _isolate_and_raise.
        destruct (isolate_fuel_first_rejected (length (firstn BATCH_SIZE (skipn i blocks))) doc
                    (firstn BATCH_SIZE (skipn i blocks)) ("batch_offset=" ++ Py.Z_to_str (Z.of_nat i))%string
                    ltac:(lia) Fb) as (pre & x & post & pfx & Hs' & Hp & Hb & Hres).
        rewrite Hres. exists pre, x, (post ++ skipn (i + BATCH_SIZE) blocks), pfx. repeat split; auto.
        rewrite Hs at 1. rewrite Hs', <- List.app_assoc. reflexivity.
Qed.

(** X16: when Feishu accepts or rejects each block on its own, with an
    [invalid param] message, [_append_with_isolation] appends every block if
    all are accepted, and otherwise appends the blocks before the first
    rejected one and raises an error naming that block. *)
Theorem append_with_isolation_first_rejected (doc blocks : list Block) :
  (forallb accepted blocks = true ->
   _append_with_isolation json_dumps append_document_blocks doc blocks = (doc ++ blocks, None)) /\
  (forallb accepted blocks = false ->
   exists pre b post pfx,
     blocks = pre ++ b :: post /\ forallb accepted pre = true /\ accepted b = false /\
     _append_with_isolation json_dumps append_document_blocks doc blocks =
       (doc ++ pre, Some (pfx ++ single_block_error json_dumps b)%string)).
Proof.
  unfold _append_with_isolation.
  exact (append_loop_first_rejected blocks (length blocks) 0 doc ltac:(unfold BATCH_SIZE; lia)).
Qed.

End IsolationProofs.

(** X17: when a batch is rejected with [invalid param], its left half is
    rejected too, but both quarters of the left half are accepted,
    [_append_with_isolation] appends only the left half and returns without
    an error: the right half is never appended. *)
Theorem append_with_isolation_drops_right_half {Block} (json_dumps : Block -> string)
    (append : list Block -> list Block -> option string) (doc blocks : list Block) (msg m : string) :
  (2 <= Nat.div (length blocks) 2)%nat -> (length blocks <= BATCH_SIZE)%nat ->
  append doc blocks = Some msg -> Py.contains "invalid param" msg = true ->
  append doc (firstn (Nat.div (length blocks) 2) blocks) = Some m ->
  append doc (firstn (Nat.div (length blocks) 4) blocks) = None ->
  append (doc ++ firstn (Nat.div (length blocks) 4) blocks)%list
         (skipn (Nat.div (length blocks) 4) (firstn (Nat.div (length blocks) 2) blocks)) = None ->
  _append_with_isolation json_dumps append doc blocks =
    ((doc ++ firstn (Nat.div (length blocks) 2) blocks)%list, None).
Proof.
  intros H2 H50 Hb Hmsg Hl Hll Hlr.
  pose proof (Nat.div_mod (length blocks) 2 ltac:(lia)) as Hd.
  pose proof (Nat.mod_upper_bound (length blocks) 2 ltac:(lia)) as Hm2.
  assert (Hlen2 : length (firstn (Nat.div (length blocks) 2) blocks) = Nat.div (length blocks) 2)
    by (rewrite length_firstn; lia).
  assert (Hq : Nat.div (Nat.div (length blocks) 2) 2 = Nat.div (length blocks) 4)
    by (rewrite Nat.Div0.div_div; reflexivity).
  destruct (length blocks) as [|[|f]] eqn:Hn; [simpl in H2; lia|simpl in H2; lia|].
  unfold _append_with_isolation. rewrite Hn at 1. rewrite append_loop_S, Hn.
  simpl Nat.leb. cbv iota.
  change (skipn 0 blocks) with blocks. rewrite (firstn_all2 (n := BATCH_SIZE)) by (unfold BATCH_SIZE in *; lia).
  rewrite Hb, Hmsg. simpl andb. cbv iota.
  unfold _isolate_and_raise. rewrite Hn at 1.
  rewrite isolate_fuel_split by lia.
  rewrite Hn, Hl.
  destruct f as [|f]; [simpl in H2; lia|].
  rewrite isolate_fuel_split by lia.
  pose proof (Nat.div_mod (Nat.div (S (S (S f))) 2) 2 ltac:(lia)) as Hd'.
  assert (Hff : firstn (Nat.div (S (S (S f))) 4) (firstn (Nat.div (S (S (S f))) 2) blocks) =
                firstn (Nat.div (S (S (S f))) 4) blocks)
    by (rewrite firstn_firstn, Nat.min_l by lia; reflexivity).
  rewrite Hlen2, Hq, Hff, Hll, Hlr. cbv iota.
  rewrite <- Hff, <- List.app_assoc, firstn_skipn.
  rewrite append_loop_S, (proj2 (Nat.leb_le _ _)) by (simpl; unfold BATCH_SIZE in *; lia).
  reflexivity.
Qed.

(** ** Witnesses of the further properties *)

Lemma evaluate_clause_neq_negates_eq_witness :
  (has_char "!" "outcome" = false /\ has_char "=" "outcome" = false /\ has_char "!" "success" = false) /\
  evaluate_clause ("outcome" ++ "!=" ++ "success") label_outcome ∅ =
  negb (evaluate_clause ("outcome" ++ "=" ++ "success") label_outcome ∅).
Proof.
  split; [split; [reflexivity|split; reflexivity]|].
  apply evaluate_clause_neq_negates_eq; reflexivity.
Defined.

Lemma evaluate_condition_conj_witness :
  Forall (fun c => Py.contains "&&" (c ++ "&") = false) ["outcome=success"; "context.x=1"] /\
  evaluate_condition (String.concat "&&" ["outcome=success"; "context.x=1"]) label_outcome ∅ =
  forallb (fun c => evaluate_condition c label_outcome ∅) ["outcome=success"; "context.x=1"].
Proof.
  assert (H : Forall (fun c => Py.contains "&&" (c ++ "&") = false) ["outcome=success"; "context.x=1"])
    by (repeat constructor).
  split; [exact H|]. apply evaluate_condition_conj. exact H.
Defined.

Lemma engine_step_continue_witness :
  exists st', engine_step gg_exec rt_ok_graph cs_state = Continue st' /\
  exists node oc ctx1 e,
    Graph.get_node rt_ok_graph (current_id cs_state) = Some node /\
    Graph.is_terminal rt_ok_graph (current_id cs_state) = false /\
    gg_exec node (ectx cs_state) = (oc, ctx1) /\
    In e (Graph.outgoing_edges rt_ok_graph (Node.id node)) /\
    current_id st' = Edge.to_node e /\
    node_outcomes st' = dict_set (node_outcomes cs_state) (current_id cs_state) oc /\
    last_outcome st' = Some oc /\
    ectx st' = merge_outcome ctx1 oc.
Proof.
  destruct (engine_step gg_exec rt_ok_graph cs_state) as [st'|o c evs|m c evs] eqn:E;
    try (vm_compute in E; discriminate E).
  exists st'. split; [reflexivity|].
  apply (engine_step_continue gg_exec rt_ok_graph cs_state st'). exact E.
Defined.


Lemma parse_value_quoted_witness :
  has_char (Dot.chr 92) "Run tests" = false /\
  Dot._parse_value (Dot.dq ++ "Run tests" ++ Dot.dq) = PyStr "Run tests".
Proof.
  split; [reflexivity|]. apply parse_value_quoted. reflexivity.
Defined.

Lemma parse_value_escaped_backslash_n_witness :
  (has_char (Dot.chr 92) "C:" = false /\ has_char (Dot.chr 92) "ew" = false) /\
  Dot._parse_value (Dot.dq ++ "C:" ++ Dot.bslash ++ Dot.bslash ++ "n" ++ "ew" ++ Dot.dq) =
  PyStr ("C:" ++ Dot.bslash ++ String (Dot.chr 10) "ew").
Proof.
  split; [split; reflexivity|]. apply parse_value_escaped_backslash_n; reflexivity.
Defined.

Lemma list_tasks_pages_witness :
  (0 < 2)%Z /\
  concat (map (fun p => fst (list_tasks (Z.of_nat p) 2 lt_world)) (seq 1 2)) =
  map task_row (firstn (2 * Z.to_nat 2) (rev (task_store lt_world))) /\
  snd (list_tasks 1 2 lt_world) = Z.of_nat (length (task_store lt_world)).
Proof.
  split; [lia|]. apply list_tasks_pages. lia.
Defined.

Lemma append_with_isolation_first_rejected_witness :
  ((forall doc batch, iso_append doc batch = None <-> forallb iso_accepted batch = true) /\
   (forall doc batch msg, iso_append doc batch = Some msg -> Py.contains "invalid param" msg = true)) /\
  ((forallb iso_accepted [1; 2; 3; 4] = true ->
    _append_with_isolation iso_dumps iso_append [] [1; 2; 3; 4] = ([] ++ [1; 2; 3; 4], None)) /\
   (forallb iso_accepted [1; 2; 3; 4] = false ->
    exists pre b post pfx,
      [1; 2; 3; 4] = pre ++ b :: post /\ forallb iso_accepted pre = true /\ iso_accepted b = false /\
      _append_with_isolation iso_dumps iso_append [] [1; 2; 3; 4] =
        ([] ++ pre, Some (pfx ++ single_block_error iso_dumps b)%string)))%list.
Proof.
  assert (H1 : forall doc batch, iso_append doc batch = None <-> forallb iso_accepted batch = true).
  { intros doc batch. unfold iso_append. destruct (forallb iso_accepted batch); split; congruence. }
  assert (H2 : forall doc batch msg, iso_append doc batch = Some msg -> Py.contains "invalid param" msg = true).
  { intros doc batch msg. unfold iso_append. destruct (forallb iso_accepted batch); [discriminate|].
    intros [= <-]. reflexivity. }
  split; [split; [exact H1|exact H2]|].
  exact (append_with_isolation_first_rejected nat iso_dumps iso_append iso_accepted H1 H2 [] [1; 2; 3; 4]).
Defined.

Lemma append_with_isolation_drops_right_half_witness :
  ((2 <= Nat.div (length [1; 2; 3; 4; 5; 6; 7; 8]) 2)%nat /\
   (length [1; 2; 3; 4; 5; 6; 7; 8] <= BATCH_SIZE)%nat /\
   size_append [] [1; 2; 3; 4; 5; 6; 7; 8] = Some "code=1770001 invalid param" /\
   Py.contains "invalid param" "code=1770001 invalid param" = true /\
   size_append [] [1; 2; 3; 4] = Some "code=1770001 invalid param" /\
   size_append [] [1; 2] = None /\
   size_append [1; 2] [3; 4] = None) /\
  _append_with_isolation iso_dumps size_append [] [1; 2; 3; 4; 5; 6; 7; 8] = ([1; 2; 3; 4], None).
Proof.
  split; [repeat split; try reflexivity; apply Nat.leb_le; reflexivity|].
  exact (append_with_isolation_drops_right_half iso_dumps size_append [] [1; 2; 3; 4; 5; 6; 7; 8]
           "code=1770001 invalid param" "code=1770001 invalid param"
           ltac:(apply Nat.leb_le; reflexivity) ltac:(apply Nat.leb_le; reflexivity)
           eq_refl eq_refl eq_refl eq_refl eq_refl).
Defined.
